(** * GeminiAgent: the session orchestrator of the Gemini 2 Live API demo

    A shallow embedding of [src/js/main/agent.js].  The class [GeminiAgent]
    becomes the record [Agent]; its methods become computations in a small
    state-and-exception monad [M] over a [World] that holds the agent, the
    runtime's table of live interval timers and the trace of every call the
    agent makes on a collaborator.

    An [async] method is run to completion: [await e] is the sequencing of
    the monad, a rejected promise is a thrown exception.  Interleavings of
    two methods at an [await] are outside this model. *)

From stdpp Require Import base option strings gmap list.
From Stdlib.Strings Require Import Byte.

Local Open Scope string_scope.
Local Open Scope list_scope.

(** ** JavaScript values the agent inspects *)

(** What a [throw] carries.  [TypeError] is raised by the runtime on a
    property access through [null] or [undefined]; [JsError] is
    [new Error(message)]. *)
Inductive Exn :=
  | TypeError (message : string)
  | JsError (message : string).

(** [error.message] *)
Definition exn_message (e : Exn) : string :=
  match e with TypeError m => m | JsError m => m end.

(** [error.name] *)
Definition exn_name (e : Exn) : string :=
  match e with TypeError _ => "TypeError" | JsError _ => "Error" end.

(** [String(error)], as computed by ['...' + error]: the name, and after
    [": "] the message unless the message is empty
    ([Error.prototype.toString]; the name is never empty here). *)
Definition exn_to_string (e : Exn) : string :=
  match exn_message e with
  | EmptyString => exn_name e
  | String _ _ as msg => exn_name e +:+ ": " +:+ msg
  end.

Inductive Outcome (A : Type) :=
  | Ok (a : A)
  | Throw (e : Exn).
Arguments Ok {A} a.
Arguments Throw {A} e.

(** Truthiness of a value that is a string, [null] or [undefined]. *)
Definition truthy_str (v : option string) : bool :=
  match v with
  | None => false
  | Some s => negb (String.eqb s "")
  end.

(** [v || d] for such a value *)
Definition or_default (v : option string) (d : string) : string :=
  match v with
  | Some s => if String.eqb s "" then d else s
  | None => d
  end.

(** An [ArrayBuffer] is its bytes; [new Uint8Array(buffer)] is a view of the
    same bytes. *)
Definition ArrayBuffer := list byte.
Definition Uint8Array := list byte.
Definition new_Uint8Array (data : ArrayBuffer) : Uint8Array := data.

(** ** Collaborators

    The classes [agent.js] imports ([GeminiWebsocketClient], [AudioStreamer],
    [AudioRecorder], [AudioVisualizer], [DeepgramTranscriber],
    [CameraManager], [ScreenManager]) and the tool manager it is given live
    in other files.  Each is a record of the state the agent reads; a call
    on one is recorded in the trace, and what decides its outcome (a
    device, the transport) is a parameter of the surroundings, [Env]. *)

Inductive Source := Camera | Screen.
Inductive Speaker := Model | User.

(** Modelled from the spec: the Streaming Audio Sink ([../audio/streamer.js]
    is missing).  [initialize()] prepares the pipeline under the
    [isInitialized] flag, [streamAudio(chunk)] enqueues and never drops,
    [stop()] discards every scheduled entry and leaves the flag to the
    caller. *)
Record AudioStreamer := {
  isInitialized : bool;
  scheduled : list Uint8Array
}.

Definition streamer_new : AudioStreamer :=
  {| isInitialized := false; scheduled := [] |}.
Definition streamer_initialize (s : AudioStreamer) : AudioStreamer :=
  {| isInitialized := true; scheduled := scheduled s |}.
Definition streamer_streamAudio (chunk : Uint8Array) (s : AudioStreamer)
  : AudioStreamer :=
  {| isInitialized := isInitialized s; scheduled := scheduled s ++ [chunk] |}.
Definition streamer_stop (s : AudioStreamer) : AudioStreamer :=
  {| isInitialized := isInitialized s; scheduled := [] |}.
Definition streamer_set_isInitialized (b : bool) (s : AudioStreamer)
  : AudioStreamer :=
  {| isInitialized := b; scheduled := scheduled s |}.

(** Modelled from the spec: a Periodic Frame Capturer ([../camera/camera.js]
    and [../screen/screen.js] are missing).  [initialize()] acquires the
    live source, [dispose()] releases it. *)
Record Capturer := { acquired : bool }.

(** Modelled from the spec: the Protocol Session ([../ws/client.js] is
    missing).  [connect()] opens the transport, [on] installs a handler,
    [disconnect()] closes the transport. *)
Record Client := {
  client_name : string;
  transport_open : bool;
  handlers : list string
}.

Definition client_new (name : string) : Client :=
  {| client_name := name; transport_open := false; handlers := [] |}.
Definition client_opened (c : Client) : Client :=
  {| client_name := client_name c; transport_open := true;
     handlers := handlers c |}.
Definition client_on (event : string) (c : Client) : Client :=
  {| client_name := client_name c; transport_open := transport_open c;
     handlers := handlers c ++ [event] |}.

(** Modelled from the spec: the transcription client
    ([../transcribe/deepgram.js] is missing), an optional side channel that
    is connected or not. *)
Record Transcriber := { isConnected : bool }.

(** Modelled from the spec: the audio device context, the Audio Capture
    Source and the visualizer ([AudioContext] is the browser's,
    [../audio/recorder.js] and [../audio/visualizer.js] are missing).  The
    agent reads no state of theirs; it holds them or not. *)
Inductive AudioContext := the_AudioContext.
Inductive AudioRecorder := the_AudioRecorder.
Inductive AudioVisualizer := the_AudioVisualizer.

(** Modelled from the spec: a function call requested by the remote side,
    [{id, name, args}], and what the tool registry answers, a result keyed
    by an id (their declarations are missing). *)
Record FunctionCall := {
  call_id : string;
  call_name : string;
  call_args : string
}.

Record ToolResult := {
  result_id : string;
  result_output : string
}.

(** Modelled from the spec: the tool registry ([../tools/tool-manager.js]
    is missing), taken as the pair of the two methods the agent calls.
    [getToolDeclarations()] may return nothing; [handleToolCall] receives
    [undefined] when the batch is empty and may reject. *)
Record ToolManager := {
  getToolDeclarations : option (list string);
  tm_handleToolCall : option FunctionCall -> Outcome ToolResult
}.

(** The configuration object, as far as the agent touches it:
    [config.tools.functionDeclarations]. *)
Record Tools := { functionDeclarations : list string }.
Record Config := { tools : option Tools }.

(** [1000 / this.fps]: the quotient is a floating-point number and is kept
    symbolic. *)
Inductive Cadence := Every_1000_over (fps : string).

(** ** The runtime *)

Inductive TimerKind :=
  | CaptureTick (s : Source)
  | KeepAlive (who : Speaker).

Inductive Level := LogInfo | LogWarn | LogError | LogDebug.

(** Every call the agent makes outside itself, in order. *)
Inductive Call :=
  | NewCameraManager (width quality facingMode : string)
  | NewScreenManager (width quality : string)
  | NewClient (name url : string)
  | ClientConnect
  | ClientOn (event : string)
  | ClientSendText (text : string)
  | ClientSendImage (image : string)
  | ClientSendToolResponse (response : ToolResult)
  | ClientDisconnect
  | ToolHandle (functionCall : option FunctionCall)
  | NewAudioContext
  | ContextClose
  | NewAudioStreamer
  | StreamerInitialize
  | StreamerStream (chunk : Uint8Array)
  | StreamerStop
  | NewAudioVisualizer
  | GainConnect
  | VisualizerStart
  | VisualizerCleanup
  | NewAudioRecorder
  | RecorderStop
  | NewTranscriber (who : Speaker) (sampleRate : N)
  | TranscriberOn (who : Speaker) (event : string)
  | TranscriberConnect (who : Speaker)
  | TranscriberSendAudio (who : Speaker) (data : list byte)
  | TranscriberKeepAlive (who : Speaker)
  | TranscriberDisconnect (who : Speaker)
  | CapturerInitialize (s : Source)
  | CapturerCapture (s : Source)
  | CapturerDispose (s : Source)
  | SetInterval (id : positive) (kind : TimerKind)
  | ClearInterval (id : positive)
  | Listener (callback : nat) (event : string) (data : option string)
  | Console (level : Level) (text : string).

(** What the surroundings decide: the stored settings, whether the
    transport opens, whether a device can be acquired (and the error if
    not), the frame a capture returns, whether the transcription service
    answers. *)
Record Env := {
  localStorage : gmap string string;
  transport : option Exn;
  device : Source -> option Exn;
  frame : Source -> string;
  deepgram : Speaker -> option Exn
}.


(** ** The agent

    The fields of [this], in the order the constructor assigns them; the
    last six are first assigned by other methods and are [undefined]
    before. *)
Record Agent := {
  initialized : bool;
  connected : bool;
  audioContext : option AudioContext;
  audioRecorder : option AudioRecorder;
  audioStreamer : option AudioStreamer;
  transcribeModelsSpeech : bool;
  transcribeUsersSpeech : bool;
  deepgramApiKey : option string;
  modelSampleRate : N;
  fps : string;
  captureInterval : Cadence;
  resizeWidth : string;
  quality : string;
  cameraManager : option Capturer;
  cameraInterval : option positive;
  screenManager : option Capturer;
  screenInterval : option positive;
  toolManager : ToolManager;
  config : Config;
  name : string;
  url : string;
  client : option Client;
  visualizer : option AudioVisualizer;
  modelTranscriber : option Transcriber;
  userTranscriber : option Transcriber;
  modelsKeepAliveInterval : option positive;
  userKeepAliveInterval : option positive;
  _eventListeners : option (gmap string (list nat))
}.

(** [this.field = v], for each field that is assigned after construction *)
Definition set_initialized (v : bool) (a : Agent) : Agent :=
  {| initialized := v; connected := connected a;
     audioContext := audioContext a; audioRecorder := audioRecorder a;
     audioStreamer := audioStreamer a;
     transcribeModelsSpeech := transcribeModelsSpeech a;
     transcribeUsersSpeech := transcribeUsersSpeech a;
     deepgramApiKey := deepgramApiKey a; modelSampleRate := modelSampleRate a;
     fps := fps a; captureInterval := captureInterval a;
     resizeWidth := resizeWidth a; quality := quality a;
     cameraManager := cameraManager a; cameraInterval := cameraInterval a;
     screenManager := screenManager a; screenInterval := screenInterval a;
     toolManager := toolManager a; config := config a; name := name a;
     url := url a; client := client a; visualizer := visualizer a;
     modelTranscriber := modelTranscriber a;
     userTranscriber := userTranscriber a;
     modelsKeepAliveInterval := modelsKeepAliveInterval a;
     userKeepAliveInterval := userKeepAliveInterval a;
     _eventListeners := _eventListeners a |}.

Definition set_connected (v : bool) (a : Agent) : Agent :=
  {| initialized := initialized a; connected := v;
     audioContext := audioContext a; audioRecorder := audioRecorder a;
     audioStreamer := audioStreamer a;
     transcribeModelsSpeech := transcribeModelsSpeech a;
     transcribeUsersSpeech := transcribeUsersSpeech a;
     deepgramApiKey := deepgramApiKey a; modelSampleRate := modelSampleRate a;
     fps := fps a; captureInterval := captureInterval a;
     resizeWidth := resizeWidth a; quality := quality a;
     cameraManager := cameraManager a; cameraInterval := cameraInterval a;
     screenManager := screenManager a; screenInterval := screenInterval a;
     toolManager := toolManager a; config := config a; name := name a;
     url := url a; client := client a; visualizer := visualizer a;
     modelTranscriber := modelTranscriber a;
     userTranscriber := userTranscriber a;
     modelsKeepAliveInterval := modelsKeepAliveInterval a;
     userKeepAliveInterval := userKeepAliveInterval a;
     _eventListeners := _eventListeners a |}.

Definition set_audioContext (v : option AudioContext) (a : Agent) : Agent :=
  {| initialized := initialized a; connected := connected a;
     audioContext := v; audioRecorder := audioRecorder a;
     audioStreamer := audioStreamer a;
     transcribeModelsSpeech := transcribeModelsSpeech a;
     transcribeUsersSpeech := transcribeUsersSpeech a;
     deepgramApiKey := deepgramApiKey a; modelSampleRate := modelSampleRate a;
     fps := fps a; captureInterval := captureInterval a;
     resizeWidth := resizeWidth a; quality := quality a;
     cameraManager := cameraManager a; cameraInterval := cameraInterval a;
     screenManager := screenManager a; screenInterval := screenInterval a;
     toolManager := toolManager a; config := config a; name := name a;
     url := url a; client := client a; visualizer := visualizer a;
     modelTranscriber := modelTranscriber a;
     userTranscriber := userTranscriber a;
     modelsKeepAliveInterval := modelsKeepAliveInterval a;
     userKeepAliveInterval := userKeepAliveInterval a;
     _eventListeners := _eventListeners a |}.

Definition set_audioRecorder (v : option AudioRecorder) (a : Agent) : Agent :=
  {| initialized := initialized a; connected := connected a;
     audioContext := audioContext a; audioRecorder := v;
     audioStreamer := audioStreamer a;
     transcribeModelsSpeech := transcribeModelsSpeech a;
     transcribeUsersSpeech := transcribeUsersSpeech a;
     deepgramApiKey := deepgramApiKey a; modelSampleRate := modelSampleRate a;
     fps := fps a; captureInterval := captureInterval a;
     resizeWidth := resizeWidth a; quality := quality a;
     cameraManager := cameraManager a; cameraInterval := cameraInterval a;
     screenManager := screenManager a; screenInterval := screenInterval a;
     toolManager := toolManager a; config := config a; name := name a;
     url := url a; client := client a; visualizer := visualizer a;
     modelTranscriber := modelTranscriber a;
     userTranscriber := userTranscriber a;
     modelsKeepAliveInterval := modelsKeepAliveInterval a;
     userKeepAliveInterval := userKeepAliveInterval a;
     _eventListeners := _eventListeners a |}.

Definition set_audioStreamer (v : option AudioStreamer) (a : Agent) : Agent :=
  {| initialized := initialized a; connected := connected a;
     audioContext := audioContext a; audioRecorder := audioRecorder a;
     audioStreamer := v; transcribeModelsSpeech := transcribeModelsSpeech a;
     transcribeUsersSpeech := transcribeUsersSpeech a;
     deepgramApiKey := deepgramApiKey a; modelSampleRate := modelSampleRate a;
     fps := fps a; captureInterval := captureInterval a;
     resizeWidth := resizeWidth a; quality := quality a;
     cameraManager := cameraManager a; cameraInterval := cameraInterval a;
     screenManager := screenManager a; screenInterval := screenInterval a;
     toolManager := toolManager a; config := config a; name := name a;
     url := url a; client := client a; visualizer := visualizer a;
     modelTranscriber := modelTranscriber a;
     userTranscriber := userTranscriber a;
     modelsKeepAliveInterval := modelsKeepAliveInterval a;
     userKeepAliveInterval := userKeepAliveInterval a;
     _eventListeners := _eventListeners a |}.

Definition set_cameraManager (v : option Capturer) (a : Agent) : Agent :=
  {| initialized := initialized a; connected := connected a;
     audioContext := audioContext a; audioRecorder := audioRecorder a;
     audioStreamer := audioStreamer a;
     transcribeModelsSpeech := transcribeModelsSpeech a;
     transcribeUsersSpeech := transcribeUsersSpeech a;
     deepgramApiKey := deepgramApiKey a; modelSampleRate := modelSampleRate a;
     fps := fps a; captureInterval := captureInterval a;
     resizeWidth := resizeWidth a; quality := quality a; cameraManager := v;
     cameraInterval := cameraInterval a; screenManager := screenManager a;
     screenInterval := screenInterval a; toolManager := toolManager a;
     config := config a; name := name a; url := url a; client := client a;
     visualizer := visualizer a; modelTranscriber := modelTranscriber a;
     userTranscriber := userTranscriber a;
     modelsKeepAliveInterval := modelsKeepAliveInterval a;
     userKeepAliveInterval := userKeepAliveInterval a;
     _eventListeners := _eventListeners a |}.

Definition set_cameraInterval (v : option positive) (a : Agent) : Agent :=
  {| initialized := initialized a; connected := connected a;
     audioContext := audioContext a; audioRecorder := audioRecorder a;
     audioStreamer := audioStreamer a;
     transcribeModelsSpeech := transcribeModelsSpeech a;
     transcribeUsersSpeech := transcribeUsersSpeech a;
     deepgramApiKey := deepgramApiKey a; modelSampleRate := modelSampleRate a;
     fps := fps a; captureInterval := captureInterval a;
     resizeWidth := resizeWidth a; quality := quality a;
     cameraManager := cameraManager a; cameraInterval := v;
     screenManager := screenManager a; screenInterval := screenInterval a;
     toolManager := toolManager a; config := config a; name := name a;
     url := url a; client := client a; visualizer := visualizer a;
     modelTranscriber := modelTranscriber a;
     userTranscriber := userTranscriber a;
     modelsKeepAliveInterval := modelsKeepAliveInterval a;
     userKeepAliveInterval := userKeepAliveInterval a;
     _eventListeners := _eventListeners a |}.

Definition set_screenManager (v : option Capturer) (a : Agent) : Agent :=
  {| initialized := initialized a; connected := connected a;
     audioContext := audioContext a; audioRecorder := audioRecorder a;
     audioStreamer := audioStreamer a;
     transcribeModelsSpeech := transcribeModelsSpeech a;
     transcribeUsersSpeech := transcribeUsersSpeech a;
     deepgramApiKey := deepgramApiKey a; modelSampleRate := modelSampleRate a;
     fps := fps a; captureInterval := captureInterval a;
     resizeWidth := resizeWidth a; quality := quality a;
     cameraManager := cameraManager a; cameraInterval := cameraInterval a;
     screenManager := v; screenInterval := screenInterval a;
     toolManager := toolManager a; config := config a; name := name a;
     url := url a; client := client a; visualizer := visualizer a;
     modelTranscriber := modelTranscriber a;
     userTranscriber := userTranscriber a;
     modelsKeepAliveInterval := modelsKeepAliveInterval a;
     userKeepAliveInterval := userKeepAliveInterval a;
     _eventListeners := _eventListeners a |}.

Definition set_screenInterval (v : option positive) (a : Agent) : Agent :=
  {| initialized := initialized a; connected := connected a;
     audioContext := audioContext a; audioRecorder := audioRecorder a;
     audioStreamer := audioStreamer a;
     transcribeModelsSpeech := transcribeModelsSpeech a;
     transcribeUsersSpeech := transcribeUsersSpeech a;
     deepgramApiKey := deepgramApiKey a; modelSampleRate := modelSampleRate a;
     fps := fps a; captureInterval := captureInterval a;
     resizeWidth := resizeWidth a; quality := quality a;
     cameraManager := cameraManager a; cameraInterval := cameraInterval a;
     screenManager := screenManager a; screenInterval := v;
     toolManager := toolManager a; config := config a; name := name a;
     url := url a; client := client a; visualizer := visualizer a;
     modelTranscriber := modelTranscriber a;
     userTranscriber := userTranscriber a;
     modelsKeepAliveInterval := modelsKeepAliveInterval a;
     userKeepAliveInterval := userKeepAliveInterval a;
     _eventListeners := _eventListeners a |}.

Definition set_client (v : option Client) (a : Agent) : Agent :=
  {| initialized := initialized a; connected := connected a;
     audioContext := audioContext a; audioRecorder := audioRecorder a;
     audioStreamer := audioStreamer a;
     transcribeModelsSpeech := transcribeModelsSpeech a;
     transcribeUsersSpeech := transcribeUsersSpeech a;
     deepgramApiKey := deepgramApiKey a; modelSampleRate := modelSampleRate a;
     fps := fps a; captureInterval := captureInterval a;
     resizeWidth := resizeWidth a; quality := quality a;
     cameraManager := cameraManager a; cameraInterval := cameraInterval a;
     screenManager := screenManager a; screenInterval := screenInterval a;
     toolManager := toolManager a; config := config a; name := name a;
     url := url a; client := v; visualizer := visualizer a;
     modelTranscriber := modelTranscriber a;
     userTranscriber := userTranscriber a;
     modelsKeepAliveInterval := modelsKeepAliveInterval a;
     userKeepAliveInterval := userKeepAliveInterval a;
     _eventListeners := _eventListeners a |}.

Definition set_visualizer (v : option AudioVisualizer) (a : Agent) : Agent :=
  {| initialized := initialized a; connected := connected a;
     audioContext := audioContext a; audioRecorder := audioRecorder a;
     audioStreamer := audioStreamer a;
     transcribeModelsSpeech := transcribeModelsSpeech a;
     transcribeUsersSpeech := transcribeUsersSpeech a;
     deepgramApiKey := deepgramApiKey a; modelSampleRate := modelSampleRate a;
     fps := fps a; captureInterval := captureInterval a;
     resizeWidth := resizeWidth a; quality := quality a;
     cameraManager := cameraManager a; cameraInterval := cameraInterval a;
     screenManager := screenManager a; screenInterval := screenInterval a;
     toolManager := toolManager a; config := config a; name := name a;
     url := url a; client := client a; visualizer := v;
     modelTranscriber := modelTranscriber a;
     userTranscriber := userTranscriber a;
     modelsKeepAliveInterval := modelsKeepAliveInterval a;
     userKeepAliveInterval := userKeepAliveInterval a;
     _eventListeners := _eventListeners a |}.

Definition set_modelTranscriber (v : option Transcriber) (a : Agent)
  : Agent :=
  {| initialized := initialized a; connected := connected a;
     audioContext := audioContext a; audioRecorder := audioRecorder a;
     audioStreamer := audioStreamer a;
     transcribeModelsSpeech := transcribeModelsSpeech a;
     transcribeUsersSpeech := transcribeUsersSpeech a;
     deepgramApiKey := deepgramApiKey a; modelSampleRate := modelSampleRate a;
     fps := fps a; captureInterval := captureInterval a;
     resizeWidth := resizeWidth a; quality := quality a;
     cameraManager := cameraManager a; cameraInterval := cameraInterval a;
     screenManager := screenManager a; screenInterval := screenInterval a;
     toolManager := toolManager a; config := config a; name := name a;
     url := url a; client := client a; visualizer := visualizer a;
     modelTranscriber := v; userTranscriber := userTranscriber a;
     modelsKeepAliveInterval := modelsKeepAliveInterval a;
     userKeepAliveInterval := userKeepAliveInterval a;
     _eventListeners := _eventListeners a |}.

Definition set_userTranscriber (v : option Transcriber) (a : Agent) : Agent :=
  {| initialized := initialized a; connected := connected a;
     audioContext := audioContext a; audioRecorder := audioRecorder a;
     audioStreamer := audioStreamer a;
     transcribeModelsSpeech := transcribeModelsSpeech a;
     transcribeUsersSpeech := transcribeUsersSpeech a;
     deepgramApiKey := deepgramApiKey a; modelSampleRate := modelSampleRate a;
     fps := fps a; captureInterval := captureInterval a;
     resizeWidth := resizeWidth a; quality := quality a;
     cameraManager := cameraManager a; cameraInterval := cameraInterval a;
     screenManager := screenManager a; screenInterval := screenInterval a;
     toolManager := toolManager a; config := config a; name := name a;
     url := url a; client := client a; visualizer := visualizer a;
     modelTranscriber := modelTranscriber a; userTranscriber := v;
     modelsKeepAliveInterval := modelsKeepAliveInterval a;
     userKeepAliveInterval := userKeepAliveInterval a;
     _eventListeners := _eventListeners a |}.

Definition set_modelsKeepAliveInterval (v : option positive) (a : Agent)
  : Agent :=
  {| initialized := initialized a; connected := connected a;
     audioContext := audioContext a; audioRecorder := audioRecorder a;
     audioStreamer := audioStreamer a;
     transcribeModelsSpeech := transcribeModelsSpeech a;
     transcribeUsersSpeech := transcribeUsersSpeech a;
     deepgramApiKey := deepgramApiKey a; modelSampleRate := modelSampleRate a;
     fps := fps a; captureInterval := captureInterval a;
     resizeWidth := resizeWidth a; quality := quality a;
     cameraManager := cameraManager a; cameraInterval := cameraInterval a;
     screenManager := screenManager a; screenInterval := screenInterval a;
     toolManager := toolManager a; config := config a; name := name a;
     url := url a; client := client a; visualizer := visualizer a;
     modelTranscriber := modelTranscriber a;
     userTranscriber := userTranscriber a; modelsKeepAliveInterval := v;
     userKeepAliveInterval := userKeepAliveInterval a;
     _eventListeners := _eventListeners a |}.

Definition set_userKeepAliveInterval (v : option positive) (a : Agent)
  : Agent :=
  {| initialized := initialized a; connected := connected a;
     audioContext := audioContext a; audioRecorder := audioRecorder a;
     audioStreamer := audioStreamer a;
     transcribeModelsSpeech := transcribeModelsSpeech a;
     transcribeUsersSpeech := transcribeUsersSpeech a;
     deepgramApiKey := deepgramApiKey a; modelSampleRate := modelSampleRate a;
     fps := fps a; captureInterval := captureInterval a;
     resizeWidth := resizeWidth a; quality := quality a;
     cameraManager := cameraManager a; cameraInterval := cameraInterval a;
     screenManager := screenManager a; screenInterval := screenInterval a;
     toolManager := toolManager a; config := config a; name := name a;
     url := url a; client := client a; visualizer := visualizer a;
     modelTranscriber := modelTranscriber a;
     userTranscriber := userTranscriber a;
     modelsKeepAliveInterval := modelsKeepAliveInterval a;
     userKeepAliveInterval := v; _eventListeners := _eventListeners a |}.

Definition set_eventListeners (v : option (gmap string (list nat))) (a : Agent)
  : Agent :=
  {| initialized := initialized a; connected := connected a;
     audioContext := audioContext a; audioRecorder := audioRecorder a;
     audioStreamer := audioStreamer a;
     transcribeModelsSpeech := transcribeModelsSpeech a;
     transcribeUsersSpeech := transcribeUsersSpeech a;
     deepgramApiKey := deepgramApiKey a; modelSampleRate := modelSampleRate a;
     fps := fps a; captureInterval := captureInterval a;
     resizeWidth := resizeWidth a; quality := quality a;
     cameraManager := cameraManager a; cameraInterval := cameraInterval a;
     screenManager := screenManager a; screenInterval := screenInterval a;
     toolManager := toolManager a; config := config a; name := name a;
     url := url a; client := client a; visualizer := visualizer a;
     modelTranscriber := modelTranscriber a;
     userTranscriber := userTranscriber a;
     modelsKeepAliveInterval := modelsKeepAliveInterval a;
     userKeepAliveInterval := userKeepAliveInterval a;
     _eventListeners := v |}.

(** The runtime outside the agent: the live interval timers, the next
    timer handle, the trace of calls, the surroundings. *)
Record Machine := {
  timers : gmap positive TimerKind;
  nextTimer : positive;
  trace : list Call;
  env : Env
}.

Definition record (c : Call) (m : Machine) : Machine :=
  {| timers := timers m; nextTimer := nextTimer m;
     trace := trace m ++ [c]; env := env m |}.

Record World := {
  this : Agent;
  machine : Machine
}.

(** ** The monad: state that survives an exception *)

Definition M (A : Type) : Type := World -> Outcome A * World.

Definition ret {A : Type} (a : A) : M A := fun w => (Ok a, w).

Definition bind {A B : Type} (m : M A) (k : A -> M B) : M B :=
  fun w =>
    match m w with
    | (Ok a, w') => k a w'
    | (Throw e, w') => (Throw e, w')
    end.

Definition throw {A : Type} (e : Exn) : M A := fun w => (Throw e, w).

(** [try { body } catch (error) { handler }] *)
Definition try_catch {A : Type} (body : M A) (handler : Exn -> M A) : M A :=
  fun w =>
    match body w with
    | (Ok a, w') => (Ok a, w')
    | (Throw e, w') => handler e w'
    end.

Declare Scope js_scope.
Delimit Scope js_scope with js.
Notation "'let*' x ':=' m 'in' k" := (bind m (fun x => k))
  (at level 10, x name, m at level 100, k at level 200) : js_scope.
Notation "m ';;' k" := (bind m (fun _ => k))
  (at level 100, k at level 200, right associativity) : js_scope.
Local Open Scope js_scope.

Definition get_this : M Agent := fun w => (Ok (this w), w).
Definition update (f : Agent -> Agent) : M unit :=
  fun w => (Ok tt, {| this := f (this w); machine := machine w |}).
Definition get_env : M Env := fun w => (Ok (env (machine w)), w).

(** A call on a collaborator is recorded. *)
Definition call (c : Call) : M unit :=
  fun w => (Ok tt, {| this := this w; machine := record c (machine w) |}).

Definition console (l : Level) (text : string) : M unit :=
  call (Console l text).

(** [o.member] where [o] may be [null] or [undefined] *)
Definition deref {A : Type} (member : string) (o : option A) : M A :=
  match o with
  | Some x => ret x
  | None => throw (TypeError ("Cannot read properties of null (reading '"
                              +:+ member +:+ "')"))
  end.

Definition when (b : bool) (m : M unit) : M unit :=
  if b then m else ret tt.

(** [if (this.field) { ... }] on a field that holds an object or a timer
    handle *)
Definition if_present {A : Type} (field : Agent -> option A)
    (k : A -> M unit) : M unit :=
  let* a := get_this in
  match field a with
  | Some x => k x
  | None => ret tt
  end.

Fixpoint for_each {A : Type} (l : list A) (k : A -> M unit) : M unit :=
  match l with
  | [] => ret tt
  | x :: l' => k x ;; for_each l' k
  end.

(** [setInterval(callback, delay)]: a fresh positive handle, live until
    cleared. *)
Definition setInterval (kind : TimerKind) : M positive :=
  fun w =>
    let m := machine w in
    let id := nextTimer m in
    (Ok id,
     {| this := this w;
        machine := {| timers := <[id := kind]> (timers m);
                      nextTimer := Pos.succ id;
                      trace := trace m ++ [SetInterval id kind];
                      env := env m |} |}).

Definition clearInterval (id : positive) : M unit :=
  fun w =>
    let m := machine w in
    (Ok tt,
     {| this := this w;
        machine := {| timers := delete id (timers m);
                      nextTimer := nextTimer m;
                      trace := trace m ++ [ClearInterval id];
                      env := env m |} |}).

(** ** The class [GeminiAgent] *)

(** The constructor's options object; [None] is an omitted property. *)
Record Options := {
  opt_name : option string;
  opt_url : option string;
  opt_config : option Config;
  opt_deepgramApiKey : option string;
  opt_transcribeModelsSpeech : option bool;
  opt_transcribeUsersSpeech : option bool;
  opt_modelSampleRate : option N;
  opt_toolManager : option ToolManager
}.

Definition constructor (o : Options) (m : Machine)
  : Outcome Agent * Machine :=
  if negb (truthy_str (opt_url o)) then
    (Throw (JsError "WebSocket URL is required"), m)
  else
    match opt_config o with
    | None => (Throw (JsError "Config is required"), m)
    | Some config =>
      let getItem := fun key : string => localStorage (env m) !! key in
      let fps := or_default (getItem "fps") "5" in
      let resizeWidth := or_default (getItem "resizeWidth") "640" in
      let quality := or_default (getItem "quality") "0.4" in
      let facingMode := or_default (getItem "facingMode") "environment" in
      let m1 := record (NewCameraManager resizeWidth quality facingMode) m in
      let m2 := record (NewScreenManager resizeWidth quality) m1 in
      match opt_toolManager o with
      | None =>
        (Throw (TypeError
           "Cannot read properties of null (reading 'getToolDeclarations')"),
         m2)
      | Some toolManager =>
        match tools config with
        | None =>
          (Throw (TypeError
             "Cannot set properties of undefined (setting 'functionDeclarations')"),
           m2)
        | Some _ =>
          (Ok {| initialized := false;
                 connected := false;
                 audioContext := None;
                 audioRecorder := None;
                 audioStreamer := None;
                 transcribeModelsSpeech :=
                   default true (opt_transcribeModelsSpeech o);
                 transcribeUsersSpeech :=
                   default false (opt_transcribeUsersSpeech o);
                 deepgramApiKey := opt_deepgramApiKey o;
                 modelSampleRate := default 24000%N (opt_modelSampleRate o);
                 fps := fps;
                 captureInterval := Every_1000_over fps;
                 resizeWidth := resizeWidth;
                 quality := quality;
                 cameraManager := Some {| acquired := false |};
                 cameraInterval := None;
                 screenManager := Some {| acquired := false |};
                 screenInterval := None;
                 toolManager := toolManager;
                 config :=
                   {| tools := Some {| functionDeclarations :=
                        default [] (getToolDeclarations toolManager) |} |};
                 name := default "GeminiAgent" (opt_name o);
                 url := default "" (opt_url o);
                 client := None;
                 visualizer := None;
                 modelTranscriber := None;
                 userTranscriber := None;
                 modelsKeepAliveInterval := None;
                 userKeepAliveInterval := None;
                 _eventListeners := None |},
           m2)
        end
      end
    end.

(** [new GeminiAgent(options)] *)
Definition new_GeminiAgent (o : Options) (m : Machine) : Outcome World :=
  match constructor o m with
  | (Ok a, m') => Ok {| this := a; machine := m' |}
  | (Throw e, _) => Throw e
  end.

(** *** Event emitter *)

Definition on (eventName : string) (callback : nat) : M unit :=
  update (fun a =>
    let listeners := default ∅ (_eventListeners a) in
    let listeners :=
      match listeners !! eventName with
      | Some _ => listeners
      | None => <[eventName := []]> listeners
      end in
    set_eventListeners
      (Some (<[eventName := default [] (listeners !! eventName) ++ [callback]]>
               listeners)) a).

(** [emit] calls the callbacks registered for the event, in order; what a
    callback does is outside the agent and is recorded as a [Listener]
    call. *)
Definition emit (eventName : string) (data : option string) : M unit :=
  let* a := get_this in
  match _eventListeners a with
  | None => ret tt
  | Some listeners =>
    match listeners !! eventName with
    | None => ret tt
    | Some callbacks =>
      for_each callbacks (fun callback => call (Listener callback eventName data))
    end
  end.

(** *** Calls on the objects the agent holds *)

(** [this.audioStreamer.method()] *)
Definition streamer_do (member : string) (c : Call)
    (f : AudioStreamer -> AudioStreamer) : M unit :=
  let* a := get_this in
  let* s := deref member (audioStreamer a) in
  call c ;;
  update (set_audioStreamer (Some (f s))).

(** [this.client.method()] *)
Definition client_do (member : string) (c : Call) (f : Client -> Client)
  : M unit :=
  let* a := get_this in
  let* cl := deref member (client a) in
  call c ;;
  update (set_client (Some (f cl))).

Definition manager (s : Source) : Agent -> option Capturer :=
  match s with Camera => cameraManager | Screen => screenManager end.

Definition set_manager (s : Source) : option Capturer -> Agent -> Agent :=
  match s with Camera => set_cameraManager | Screen => set_screenManager end.

(** [await this.cameraManager.initialize()] and its screen twin: the source
    is acquired, or the call rejects with what the device reports. *)
Definition capturer_initialize (s : Source) : M unit :=
  let* a := get_this in
  let* _ := deref "initialize" (manager s a) in
  call (CapturerInitialize s) ;;
  let* e := get_env in
  match device e s with
  | Some error => throw error
  | None => update (set_manager s (Some {| acquired := true |}))
  end.

Definition capturer_capture (s : Source) : M string :=
  let* a := get_this in
  let* _ := deref "capture" (manager s a) in
  call (CapturerCapture s) ;;
  let* e := get_env in
  ret (frame e s).

Definition capturer_dispose (s : Source) : M unit :=
  call (CapturerDispose s) ;;
  update (set_manager s (Some {| acquired := false |})).

(** *** Inbound events: [setupEventListeners] *)

Definition on_audio (data : ArrayBuffer) : M unit :=
  try_catch
    (let* a := get_this in
     let* s := deref "isInitialized" (audioStreamer a) in
     when (negb (isInitialized s))
       (streamer_do "initialize" StreamerInitialize streamer_initialize) ;;
     streamer_do "streamAudio" (StreamerStream (new_Uint8Array data))
       (streamer_streamAudio (new_Uint8Array data)) ;;
     if_present modelTranscriber (fun t =>
       when (isConnected t) (call (TranscriberSendAudio Model data))))
    (fun error =>
       throw (JsError ("Audio processing error:" +:+ exn_to_string error))).

Definition on_interrupted : M unit :=
  streamer_do "stop" StreamerStop streamer_stop ;;
  (let* a := get_this in
   let* s := deref "isInitialized" (audioStreamer a) in
   update (set_audioStreamer (Some (streamer_set_isInitialized false s)))) ;;
  emit "interrupted" None.

Definition on_turn_complete : M unit :=
  console LogInfo "Model finished speaking" ;;
  emit "turn_complete" None.

Record ToolCall := { functionCalls : list FunctionCall }.

Definition handleToolCall (toolCall : ToolCall) : M unit :=
  let functionCall := head (functionCalls toolCall) in
  let* a := get_this in
  call (ToolHandle functionCall) ;;
  let* response :=
    (fun w => (tm_handleToolCall (toolManager a) functionCall, w)) in
  let* a := get_this in
  let* _ := deref "sendToolResponse" (client a) in
  call (ClientSendToolResponse response).

Definition on_tool_call (toolCall : ToolCall) : M unit :=
  handleToolCall toolCall.

Definition setupEventListeners : M unit :=
  client_do "on" (ClientOn "audio") (client_on "audio") ;;
  client_do "on" (ClientOn "interrupted") (client_on "interrupted") ;;
  client_do "on" (ClientOn "turn_complete") (client_on "turn_complete") ;;
  client_do "on" (ClientOn "tool_call") (client_on "tool_call").

(** *** Connection *)

(** [await this.client.connect()]: the transport opens, or the call
    rejects with what the transport reports. *)
Definition client_connect : M unit :=
  let* a := get_this in
  let* cl := deref "connect" (client a) in
  call ClientConnect ;;
  let* e := get_env in
  match transport e with
  | Some error => throw error
  | None => update (set_client (Some (client_opened cl)))
  end.

Definition connect : M unit :=
  let* a := get_this in
  call (NewClient (name a) (url a)) ;;
  update (set_client (Some (client_new (name a)))) ;;
  client_connect ;;
  setupEventListeners ;;
  update (set_connected true).

Definition sendText (text : string) : M unit :=
  let* a := get_this in
  let* _ := deref "sendText" (client a) in
  call (ClientSendText text) ;;
  emit "text_sent" (Some text).

(** *** Periodic capture *)

Definition stopCameraCapture : M unit :=
  if_present cameraInterval (fun id =>
    clearInterval id ;;
    update (set_cameraInterval None)) ;;
  if_present cameraManager (fun _ => capturer_dispose Camera) ;;
  console LogInfo "Camera capture stopped".

Definition stopScreenShare : M unit :=
  if_present screenInterval (fun id =>
    clearInterval id ;;
    update (set_screenInterval None)) ;;
  if_present screenManager (fun _ => capturer_dispose Screen) ;;
  console LogInfo "Screen sharing stopped".

Definition disconnect : M unit :=
  try_catch
    (stopCameraCapture ;;
     stopScreenShare ;;
     if_present audioRecorder (fun _ =>
       call RecorderStop ;;
       update (set_audioRecorder None)) ;;
     if_present visualizer (fun _ =>
       call VisualizerCleanup ;;
       update (set_visualizer None)) ;;
     if_present audioStreamer (fun _ =>
       call StreamerStop ;;
       update (set_audioStreamer None)) ;;
     if_present modelTranscriber (fun _ =>
       call (TranscriberDisconnect Model) ;;
       update (set_modelTranscriber None) ;;
       if_present modelsKeepAliveInterval (fun id =>
         clearInterval id ;;
         update (set_modelsKeepAliveInterval None))) ;;
     if_present userTranscriber (fun _ =>
       call (TranscriberDisconnect User) ;;
       update (set_userTranscriber None) ;;
       if_present userKeepAliveInterval (fun id =>
         clearInterval id ;;
         update (set_userKeepAliveInterval None))) ;;
     if_present audioContext (fun _ =>
       call ContextClose ;;
       update (set_audioContext None)) ;;
     (let* a := get_this in
      let* _ := deref "disconnect" (client a) in
      call ClientDisconnect) ;;
     update (set_client None) ;;
     update (set_initialized false) ;;
     update (set_connected false) ;;
     console LogInfo "Disconnected and cleaned up all resources")
    (fun error =>
       throw (JsError ("Disconnect error:" +:+ exn_to_string error))).

(** The callback given to [setInterval] in [startCameraCapture] and in
    [startScreenShare]. *)
Definition capture_tick (s : Source) : M unit :=
  let* imageBase64 := capturer_capture s in
  let* a := get_this in
  let* _ := deref "sendImage" (client a) in
  call (ClientSendImage imageBase64).

Definition startCameraCapture : M unit :=
  let* a := get_this in
  if negb (connected a) then
    throw (JsError "Must be connected to start camera capture")
  else
    try_catch
      (capturer_initialize Camera ;;
       let* id := setInterval (CaptureTick Camera) in
       update (set_cameraInterval (Some id)) ;;
       console LogInfo "Camera capture started")
      (fun error =>
         disconnect ;;
         throw (JsError ("Failed to start camera capture: "
                         +:+ exn_to_string error))).

Definition startScreenShare : M unit :=
  let* a := get_this in
  if negb (connected a) then
    throw (JsError "Websocket must be connected to start screen sharing")
  else
    try_catch
      (capturer_initialize Screen ;;
       let* id := setInterval (CaptureTick Screen) in
       update (set_screenInterval (Some id)) ;;
       console LogInfo "Screen sharing started")
      (fun error =>
         stopScreenShare ;;
         throw (JsError ("Failed to start screen sharing: "
                         +:+ exn_to_string error))).

(** The [onStop] callback handed to the [ScreenManager] by the
    constructor: the screen source calls it when sharing ends outside the
    agent. *)
Definition screen_onStop : M unit :=
  if_present screenInterval (fun id =>
    clearInterval id ;;
    update (set_screenInterval None)) ;;
  emit "screenshare_stopped" None.

(** *** Transcribers *)

Definition transcriber (who : Speaker) : Agent -> option Transcriber :=
  match who with Model => modelTranscriber | User => userTranscriber end.

(** The keep-alive callback given to [setInterval]. *)
Definition keepalive_tick (who : Speaker) : M unit :=
  let* a := get_this in
  let* t := deref "isConnected" (transcriber who a) in
  when (isConnected t)
    (call (TranscriberKeepAlive who) ;;
     console LogInfo
       match who with
       | Model => "Sent keep-alive message to model speech transcriber"
       | User => "Sent keep-alive message to user transcriber"
       end).

Definition initializeModelSpeechTranscriber : M unit :=
  let* a := get_this in
  match modelTranscriber a with
  | None =>
    console LogWarn
      "Either no Deepgram API key provided or model speech transcription disabled"
  | Some _ =>
    console LogInfo "Initializing Deepgram model speech transcriber..." ;;
    call (TranscriberOn Model "connected") ;;
    call (TranscriberOn Model "transcription") ;;
    call (TranscriberConnect Model) ;;
    let* e := get_env in
    match deepgram e Model with
    | Some error => throw error
    | None =>
      update (set_modelTranscriber (Some {| isConnected := true |})) ;;
      console LogInfo
        "Model speech transcriber connection established, setting up keep-alive..." ;;
      let* id := setInterval (KeepAlive Model) in
      update (set_modelsKeepAliveInterval (Some id))
    end
  end.

Definition initializeUserSpeechTranscriber : M unit :=
  let* a := get_this in
  match userTranscriber a with
  | None =>
    console LogWarn
      "Either no Deepgram API key provided or user speech transcription disabled"
  | Some _ =>
    console LogInfo "Initializing Deepgram user speech transcriber..." ;;
    call (TranscriberOn User "connected") ;;
    call (TranscriberOn User "transcription") ;;
    call (TranscriberConnect User) ;;
    let* e := get_env in
    match deepgram e User with
    | Some error => throw error
    | None =>
      update (set_userTranscriber (Some {| isConnected := true |})) ;;
      console LogInfo
        "User speech transcriber connection established, setting up keep-alive..." ;;
      let* id := setInterval (KeepAlive User) in
      update (set_userKeepAliveInterval (Some id))
    end
  end.

(** *** [initialize] *)

Definition initialize : M unit :=
  try_catch
    (call NewAudioContext ;;
     update (set_audioContext (Some the_AudioContext)) ;;
     call NewAudioStreamer ;;
     update (set_audioStreamer (Some streamer_new)) ;;
     streamer_do "initialize" StreamerInitialize streamer_initialize ;;
     call NewAudioVisualizer ;;
     update (set_visualizer (Some the_AudioVisualizer)) ;;
     call GainConnect ;;
     call VisualizerStart ;;
     call NewAudioRecorder ;;
     update (set_audioRecorder (Some the_AudioRecorder)) ;;
     (let* a := get_this in
      if truthy_str (deepgramApiKey a) then
        when (transcribeModelsSpeech a)
          (call (NewTranscriber Model (modelSampleRate a)) ;;
           update (set_modelTranscriber (Some {| isConnected := false |})) ;;
           initializeModelSpeechTranscriber) ;;
        when (transcribeUsersSpeech a)
          (call (NewTranscriber User 16000%N) ;;
           update (set_userTranscriber (Some {| isConnected := false |})) ;;
           initializeUserSpeechTranscriber)
      else
        console LogWarn "No Deepgram API key provided, transcription disabled") ;;
     update (set_initialized true) ;;
     (let* a := get_this in
      let* cl := deref "name" (client a) in
      console LogInfo (client_name cl +:+ " initialized successfully")) ;;
     (let* a := get_this in
      let* _ := deref "sendText" (client a) in
      call (ClientSendText ".")))
    (fun error =>
       console LogError "Initialization error:" ;;
       throw (JsError ("Error during the initialization of the client: "
                       +:+ exn_message error))).

(** ** The event loop *)

(** A live timer fires: its callback runs.  A cleared handle fires
    nothing. *)
Definition fire (id : positive) : M unit :=
  fun w =>
    match timers (machine w) !! id with
    | Some (CaptureTick s) => capture_tick s w
    | Some (KeepAlive who) => keepalive_tick who w
    | None => (Ok tt, w)
    end.

(** What the protocol client delivers to the handlers installed by
    [setupEventListeners]. *)
Inductive Inbound :=
  | Audio (data : ArrayBuffer)
  | Interrupted
  | TurnComplete
  | ToolCallEvent (toolCall : ToolCall).

Definition handle (ev : Inbound) : M unit :=
  match ev with
  | Audio data => on_audio data
  | Interrupted => on_interrupted
  | TurnComplete => on_turn_complete
  | ToolCallEvent toolCall => on_tool_call toolCall
  end.

(** Events are handled in arrival order; a handler that throws does not
    stop the delivery of the next event. *)
Fixpoint deliver (evs : list Inbound) (w : World) : World :=
  match evs with
  | [] => w
  | ev :: evs' => deliver evs' (snd (handle ev w))
  end.

(** ** Reading a trace *)

(** The world with more calls recorded. *)
Definition logged (cs : list Call) (w : World) : World :=
  {| this := this w;
     machine := {| timers := timers (machine w);
                   nextTimer := nextTimer (machine w);
                   trace := trace (machine w) ++ cs;
                   env := env (machine w) |} |}.

(** The calls [emit] makes for an event. *)
Definition listener_calls (a : Agent) (eventName : string)
    (data : option string) : list Call :=
  match _eventListeners a with
  | None => []
  | Some listeners =>
    match listeners !! eventName with
    | None => []
    | Some callbacks =>
      map (fun callback => Listener callback eventName data) callbacks
    end
  end.

(** What the audio handler forwards to the transcription side channel. *)
Definition side_channel (a : Agent) (data : ArrayBuffer) : list Call :=
  match modelTranscriber a with
  | Some t => if isConnected t then [TranscriberSendAudio Model data] else []
  | None => []
  end.

(** The chunks handed to the sink's [streamAudio], in order. *)
Definition streamed (tr : list Call) : list Uint8Array :=
  omap (fun c => match c with StreamerStream chunk => Some chunk | _ => None end) tr.

(** The text turns handed to the client. *)
Definition sent_texts (tr : list Call) : list string :=
  omap (fun c => match c with ClientSendText t => Some t | _ => None end) tr.

(** The function calls handed to the tool registry. *)
Definition tool_invocations (tr : list Call) : list (option FunctionCall) :=
  omap (fun c => match c with ToolHandle fc => Some fc | _ => None end) tr.

(** The results handed to the client's [sendToolResponse]. *)
Definition tool_responses (tr : list Call) : list ToolResult :=
  omap (fun c => match c with ClientSendToolResponse r => Some r | _ => None end) tr.

(** Modelled from the spec: the [toolResponse] envelope the missing
    protocol client puts on the wire,
    [{toolResponse: {functionResponses: [{id, response}]}}]. *)
Record FunctionResponse := {
  response_id : string;
  response_body : string
}.

Definition toolResponse_envelope (r : ToolResult) : list FunctionResponse :=
  [{| response_id := result_id r; response_body := result_output r |}].

(** Scans the calls on the sink.  [primed] tells whether [initialize] has
    run since the last [stop]; the scan fails at a chunk streamed into a
    pipeline that was stopped and not initialized again. *)
Fixpoint reprimed (primed : bool) (tr : list Call) : bool :=
  match tr with
  | [] => true
  | StreamerStop :: tr' => reprimed false tr'
  | StreamerInitialize :: tr' => reprimed true tr'
  | StreamerStream _ :: tr' => primed && reprimed primed tr'
  | _ :: tr' => reprimed primed tr'
  end.

(** The world with another sink in the agent's [audioStreamer] field. *)
Definition with_streamer (s : AudioStreamer) (w : World) : World :=
  {| this := set_audioStreamer (Some s) (this w); machine := machine w |}.

(** The sink is held, and its flag is set only if [initialize] has run
    since the last [stop]; [primed] is the state of the scan [reprimed]. *)
Definition sink_tracked (primed : bool) (w : World) : Prop :=
  exists s, audioStreamer (this w) = Some s /\
            (isInitialized s = true -> primed = true).

(** Every transcriber that [initialize] would start gets its connection. *)
Definition transcription_answers (w : World) : Prop :=
  truthy_str (deepgramApiKey (this w)) = true ->
  (transcribeModelsSpeech (this w) = true ->
   deepgram (env (machine w)) Model = None) /\
  (transcribeUsersSpeech (this w) = true ->
   deepgram (env (machine w)) User = None).

(** The timer table after [if (handle) clearInterval(handle)]. *)
Definition cleared (handle : option positive) (ts : gmap positive TimerKind)
  : gmap positive TimerKind :=
  match handle with
  | Some id => delete id ts
  | None => ts
  end.

(** A capturer field after [if (manager) manager.dispose()]. *)
Definition disposed (m : option Capturer) : option Capturer :=
  match m with
  | Some _ => Some {| acquired := false |}
  | None => None
  end.

(** What the release of the audio resources leaves alone: the capture
    fields, the client and the lifecycle flags; no timer is started. *)
Record untouched (w w' : World) : Prop := {
  same_cameraInterval : cameraInterval (this w') = cameraInterval (this w);
  same_screenInterval : screenInterval (this w') = screenInterval (this w);
  same_cameraManager : cameraManager (this w') = cameraManager (this w);
  same_screenManager : screenManager (this w') = screenManager (this w);
  same_client : client (this w') = client (this w);
  same_connected : connected (this w') = connected (this w);
  same_initialized : initialized (this w') = initialized (this w);
  fewer_timers : timers (machine w') ⊆ timers (machine w)
}.

(** A statement that completes and leaves those alone. *)
Definition tidy (m : M unit) : Prop :=
  forall w, exists w', m w = (Ok tt, w') /\ untouched w w'.

(** A connected agent holds a client. *)
Definition linked (w : World) : Prop :=
  connected (this w) = true -> is_Some (client (this w)).

(** ** A session to run the model on

    The page script builds the agent from a URL, a configuration, a tool
    registry and an optional transcription key, and connects at once. *)

Definition echo_tools : ToolManager :=
  {| getToolDeclarations := Some ["googleSearch"];
     tm_handleToolCall := fun fc =>
       match fc with
       | Some c =>
         Ok {| result_id := call_id c; result_output := call_name c |}
       | None =>
         Throw (TypeError
                  "Cannot read properties of undefined (reading 'name')")
       end |}.

Definition page_options : Options :=
  {| opt_name := None;
     opt_url := Some "wss://example.test/live";
     opt_config := Some {| tools := Some {| functionDeclarations := [] |} |};
     opt_deepgramApiKey := None;
     opt_transcribeModelsSpeech := None;
     opt_transcribeUsersSpeech := None;
     opt_modelSampleRate := Some 24000%N;
     opt_toolManager := Some echo_tools |}.

(** Surroundings in which everything succeeds. *)
Definition calm : Env :=
  {| localStorage := ∅;
     transport := None;
     device := fun _ => None;
     frame := fun s =>
       match s with Camera => "camera-frame" | Screen => "screen-frame" end;
     deepgram := fun _ => None |}.

Definition boot (e : Env) : Machine :=
  {| timers := ∅; nextTimer := 1%positive; trace := []; env := e |}.

Definition unwrap (r : Outcome World)
  : match r with Ok _ => World | Throw _ => unit end :=
  match r with Ok w => w | Throw _ => tt end.

(** The agent as the page script constructs it. *)
Definition page_world : World :=
  Eval vm_compute in unwrap (new_GeminiAgent page_options (boot calm)).

(** After [connect()], and after [initialize()] as well. *)
Definition connected_world : World :=
  Eval vm_compute in snd (connect page_world).

Definition ready_world : World :=
  Eval vm_compute in snd (initialize connected_world).

(** Connected, a listener on [screenshare_stopped], the screen shared. *)
Definition sharing_world : World :=
  Eval vm_compute in
    snd (startScreenShare (snd (on "screenshare_stopped" 7 connected_world))).

(** Options that leave out the endpoint URL, and options that leave out
    the tool manager. *)
Definition urlless_options : Options :=
  {| opt_name := None;
     opt_url := None;
     opt_config := Some {| tools := Some {| functionDeclarations := [] |} |};
     opt_deepgramApiKey := None;
     opt_transcribeModelsSpeech := None;
     opt_transcribeUsersSpeech := None;
     opt_modelSampleRate := None;
     opt_toolManager := Some echo_tools |}.

Definition toolless_options : Options :=
  {| opt_name := None;
     opt_url := Some "wss://example.test/live";
     opt_config := Some {| tools := Some {| functionDeclarations := [] |} |};
     opt_deepgramApiKey := None;
     opt_transcribeModelsSpeech := None;
     opt_transcribeUsersSpeech := None;
     opt_modelSampleRate := None;
     opt_toolManager := None |}.

(** The function call of the tool round trip. *)
Definition abc_call : FunctionCall :=
  {| call_id := "abc"; call_name := "googleSearch"; call_args := "{}" |}.

(** *** Capture timers *)

(** The interval field of a capture path. *)
Definition interval (s : Source) : Agent -> option positive :=
  match s with Camera => cameraInterval | Screen => screenInterval end.

(** Every live capture timer of [s] is the one held in the path's interval
    field: no start of [s] had its handle overwritten by a later start. *)
Definition sole_capture_timer (s : Source) (w : World) : Prop :=
  forall id,
    timers (machine w) !! id = Some (CaptureTick s) ->
    interval s (this w) = Some id.

(** No capture timer of [s] is live. *)
Definition capture_free (s : Source) (w : World) : Prop :=
  forall id, timers (machine w) !! id <> Some (CaptureTick s).

(** Whatever handle fires, the capturer of [s] is not asked for a frame. *)
Definition quiet (s : Source) (w : World) : Prop :=
  forall id,
    exists new,
      trace (machine (snd (fire id w))) = trace (machine w) ++ new /\
      CapturerCapture s ∉ new.

(** The same world once the capture permissions have been withdrawn: every
    later acquisition is refused. *)
Definition revoked (w : World) : World :=
  {| this := this w;
     machine :=
       {| timers := timers (machine w);
          nextTimer := nextTimer (machine w);
          trace := trace (machine w);
          env := {| localStorage := localStorage (env (machine w));
                    transport := transport (env (machine w));
                    device := fun _ => Some (JsError "Permission denied");
                    frame := frame (env (machine w));
                    deepgram := deepgram (env (machine w)) |} |} |}.

(** The screen shared a second time without a stop in between, and then
    stopped by the caller and the permissions withdrawn. *)
Definition twice_shared_world : World :=
  Eval vm_compute in snd (startScreenShare sharing_world).




(** The screen shared once, and the permissions withdrawn. *)
Definition withdrawn_world : World :=
  Eval vm_compute in revoked sharing_world.

(** ** Sessions

    What can happen to an agent after its construction: a method is called,
    the protocol client delivers an event, a timer fires, the screen source
    ends. *)
Inductive Action :=
  | CallConnect
  | CallDisconnect
  | CallInitialize
  | CallSendText (text : string)
  | CallStartCameraCapture
  | CallStopCameraCapture
  | CallStartScreenShare
  | CallStopScreenShare
  | CallOn (eventName : string) (callback : nat)
  | Receive (ev : Inbound)
  | TimerFires (id : positive)
  | ScreenSourceEnds.

Definition perform (act : Action) : M unit :=
  match act with
  | CallConnect => connect
  | CallDisconnect => disconnect
  | CallInitialize => initialize
  | CallSendText text => sendText text
  | CallStartCameraCapture => startCameraCapture
  | CallStopCameraCapture => stopCameraCapture
  | CallStartScreenShare => startScreenShare
  | CallStopScreenShare => stopScreenShare
  | CallOn eventName callback => on eventName callback
  | Receive ev => handle ev
  | TimerFires id => fire id
  | ScreenSourceEnds => screen_onStop
  end.

(** The actions happen one after the other; one that throws does not stop
    the next. *)
Fixpoint session (acts : list Action) (w : World) : World :=
  match acts with
  | [] => w
  | act :: acts' => session acts' (snd (perform act w))
  end.

(** A property of the world that a computation keeps, whatever its
    outcome. *)
Definition keeps {A : Type} (I : World -> Prop) (m : M A) : Prop :=
  forall w, I w -> I (snd (m w)).

(** No live timer has a handle that [setInterval] is still to hand out. *)
Definition fresh_handles (w : World) : Prop :=
  forall id kind,
    timers (machine w) !! id = Some kind ->
    (id < nextTimer (machine w))%positive.

(** The four fields that hold a timer handle, and the kind of timer each
    one holds. *)
Inductive Slot := CameraSlot | ScreenSlot | ModelSlot | UserSlot.

#[global] Instance Slot_eq_dec : EqDecision Slot.
Proof. solve_decision. Defined.

Definition slot_field (s : Slot) : Agent -> option positive :=
  match s with
  | CameraSlot => cameraInterval
  | ScreenSlot => screenInterval
  | ModelSlot => modelsKeepAliveInterval
  | UserSlot => userKeepAliveInterval
  end.

Definition slot_set (s : Slot) : option positive -> Agent -> Agent :=
  match s with
  | CameraSlot => set_cameraInterval
  | ScreenSlot => set_screenInterval
  | ModelSlot => set_modelsKeepAliveInterval
  | UserSlot => set_userKeepAliveInterval
  end.

Definition slot_kind (s : Slot) : TimerKind :=
  match s with
  | CameraSlot => CaptureTick Camera
  | ScreenSlot => CaptureTick Screen
  | ModelSlot => KeepAlive Model
  | UserSlot => KeepAlive User
  end.

(** A handle held in a field is a live timer of that field's kind. *)
Definition held_live (w : World) : Prop :=
  forall s id,
    slot_field s (this w) = Some id ->
    timers (machine w) !! id = Some (slot_kind s).

Definition timers_sound (w : World) : Prop :=
  fresh_handles w /\ held_live w.

(** The fields the timer discipline and the client link depend on. *)
Definition same_handles (a a' : Agent) : Prop :=
  forall s, slot_field s a' = slot_field s a.

Definition same_link (a a' : Agent) : Prop :=
  client a' = client a /\ connected a' = connected a.

(** The agent after the guarded releases of [disconnect()]: every owned
    resource is dropped, each capturer disposed; a keep-alive handle is
    dropped together with its transcriber only. *)
Definition released (a : Agent) : Agent :=
  set_audioContext None
    (set_userKeepAliveInterval
       (match userTranscriber a with
        | Some _ => None
        | None => userKeepAliveInterval a
        end)
       (set_userTranscriber None
          (set_modelsKeepAliveInterval
             (match modelTranscriber a with
              | Some _ => None
              | None => modelsKeepAliveInterval a
              end)
             (set_modelTranscriber None
                (set_audioStreamer None
                   (set_visualizer None
                      (set_audioRecorder None
                         (set_screenManager (disposed (screenManager a))
                            (set_screenInterval None
                               (set_cameraManager
                                  (disposed (cameraManager a))
                                  (set_cameraInterval None a))))))))))).

(** The timers those releases clear. *)
Definition released_timers (a : Agent) (ts : gmap positive TimerKind)
  : gmap positive TimerKind :=
  cleared (match userTranscriber a with
           | Some _ => userKeepAliveInterval a
           | None => None
           end)
    (cleared (match modelTranscriber a with
              | Some _ => modelsKeepAliveInterval a
              | None => None
              end)
       (cleared (screenInterval a) (cleared (cameraInterval a) ts))).

(** The world with another agent, another timer table and more trace. *)
Definition evolved (a : Agent) (ts : gmap positive TimerKind)
    (new : list Call) (w : World) : World :=
  {| this := a;
     machine := {| timers := ts;
                   nextTimer := nextTimer (machine w);
                   trace := trace (machine w) ++ new;
                   env := env (machine w) |} |}.

(** A property of the world that holds whenever the computation
    completes. *)
Definition ensures {A : Type} (Q : World -> Prop) (m : M A) : Prop :=
  forall w a w', m w = (Ok a, w') -> Q w'.

Definition is_connected (w : World) : Prop := connected (this w) = true.
Definition is_initialized (w : World) : Prop := initialized (this w) = true.

(** Surroundings in which the transcription service refuses the
    connection, and an agent that was given a transcription key. *)
Definition deaf : Env :=
  {| localStorage := ∅;
     transport := None;
     device := fun _ => None;
     frame := fun _ => "";
     deepgram := fun _ => Some (JsError "refused") |}.

Definition keyed_options : Options :=
  {| opt_name := None;
     opt_url := Some "wss://example.test/live";
     opt_config := Some {| tools := Some {| functionDeclarations := [] |} |};
     opt_deepgramApiKey := Some "dg-key";
     opt_transcribeModelsSpeech := None;
     opt_transcribeUsersSpeech := None;
     opt_modelSampleRate := None;
     opt_toolManager := Some echo_tools |}.

Definition keyed_world : World :=
  Eval vm_compute in
    snd (connect (unwrap (new_GeminiAgent keyed_options (boot deaf)))).

(** ** The page

    The click handlers that [setupEventListeners(agent)] of the page's
    event module installs, with the part of the document they read and
    write: the two connection buttons' [style.display], the [active] class
    of the three media buttons, and the module's two flags. *)
Record Page := {
  connectBtn_display : string;
  disconnectBtn_display : string;
  micBtn_active : bool;
  cameraBtn_active : bool;
  screenBtn_active : bool;
  isCameraActive : bool;
  isScreenShareActive : bool
}.

Record Browser := {
  world : World;
  page : Page
}.

(** The same monad, over the agent's world and the page together. *)
Definition P (A : Type) : Type := Browser -> Outcome A * Browser.

Definition pret {A : Type} (a : A) : P A := fun b => (Ok a, b).

Definition pbind {A B : Type} (m : P A) (k : A -> P B) : P B :=
  fun b =>
    match m b with
    | (Ok a, b') => k a b'
    | (Throw e, b') => (Throw e, b')
    end.

Definition ptry_catch {A : Type} (body : P A) (handler : Exn -> P A) : P A :=
  fun b =>
    match body b with
    | (Ok a, b') => (Ok a, b')
    | (Throw e, b') => handler e b'
    end.

(** A method of the agent, called from the page. *)
Definition lift {A : Type} (m : M A) : P A :=
  fun b =>
    match m (world b) with
    | (r, w') => (r, {| world := w'; page := page b |})
    end.

Definition get_agent : P Agent := fun b => (Ok (this (world b)), b).
Definition get_page : P Page := fun b => (Ok (page b), b).
Definition draw (f : Page -> Page) : P unit :=
  fun b => (Ok tt, {| world := world b; page := f (page b) |}).

Declare Scope page_scope.
Delimit Scope page_scope with page.
Notation "'let*' x ':=' m 'in' k" := (pbind m (fun x => k))
  (at level 10, x name, m at level 100, k at level 200) : page_scope.
Notation "m ';;' k" := (pbind m (fun _ => k))
  (at level 100, k at level 200, right associativity) : page_scope.

Definition set_displays (connectBtn disconnectBtn : string) (p : Page)
  : Page :=
  {| connectBtn_display := connectBtn;
     disconnectBtn_display := disconnectBtn;
     micBtn_active := micBtn_active p;
     cameraBtn_active := cameraBtn_active p;
     screenBtn_active := screenBtn_active p;
     isCameraActive := isCameraActive p;
     isScreenShareActive := isScreenShareActive p |}.

Definition set_camera (button flag : bool) (p : Page) : Page :=
  {| connectBtn_display := connectBtn_display p;
     disconnectBtn_display := disconnectBtn_display p;
     micBtn_active := micBtn_active p;
     cameraBtn_active := button;
     screenBtn_active := screenBtn_active p;
     isCameraActive := flag;
     isScreenShareActive := isScreenShareActive p |}.

Definition set_screen (button flag : bool) (p : Page) : Page :=
  {| connectBtn_display := connectBtn_display p;
     disconnectBtn_display := disconnectBtn_display p;
     micBtn_active := micBtn_active p;
     cameraBtn_active := cameraBtn_active p;
     screenBtn_active := button;
     isCameraActive := isCameraActive p;
     isScreenShareActive := flag |}.

Definition showDisconnectButton : P unit := draw (set_displays "none" "block").
Definition showConnectButton : P unit := draw (set_displays "block" "none").

Definition ensureAgentReady : P unit :=
  ((let* agent := get_agent in
    if negb (connected agent) then
      lift connect ;;
      showDisconnectButton
    else pret tt) ;;
   let* agent := get_agent in
   if negb (initialized agent) then lift initialize else pret tt)%page.

(** The [click] handler of the disconnect button. *)
Definition disconnect_click : P unit :=
  ptry_catch
    (lift disconnect ;;
     showConnectButton ;;
     draw (fun p =>
       {| connectBtn_display := connectBtn_display p;
          disconnectBtn_display := disconnectBtn_display p;
          micBtn_active := false;
          cameraBtn_active := false;
          screenBtn_active := false;
          isCameraActive := false;
          isScreenShareActive := isScreenShareActive p |}))%page
    (fun error => lift (console LogError "Error disconnecting:")).

(** The [click] handler of the connect button. *)
Definition connect_click : P unit :=
  ptry_catch ensureAgentReady
    (fun error => lift (console LogError "Error connecting:")).

(** The [click] handler of the camera button. *)
Definition camera_click : P unit :=
  ptry_catch
    (ensureAgentReady ;;
     let* p := get_page in
     (if negb (isCameraActive p) then
        lift startCameraCapture ;;
        draw (fun p => set_camera true (isCameraActive p) p)
      else
        lift stopCameraCapture ;;
        draw (fun p => set_camera false (isCameraActive p) p)) ;;
     draw (fun p => set_camera (cameraBtn_active p) (negb (isCameraActive p)) p))%page
    (fun error =>
       (lift (console LogError "Error toggling camera:") ;;
        draw (set_camera false false))%page).

(** The [click] handler of the screen button. *)
Definition screen_click : P unit :=
  ptry_catch
    (ensureAgentReady ;;
     let* p := get_page in
     (if negb (isScreenShareActive p) then
        lift startScreenShare ;;
        draw (fun p => set_screen true (isScreenShareActive p) p)
      else
        lift stopScreenShare ;;
        draw (fun p => set_screen false (isScreenShareActive p) p)) ;;
     draw (fun p => set_screen (screenBtn_active p) (negb (isScreenShareActive p)) p))%page
    (fun error =>
       (lift (console LogError "Error toggling screen share:") ;;
        draw (set_screen false false))%page).

(** A page with nothing active, and a browser in which the agent is
    connected and shares the screen while the page's flag says so. *)
Definition idle_page : Page :=
  {| connectBtn_display := "block";
     disconnectBtn_display := "none";
     micBtn_active := false;
     cameraBtn_active := false;
     screenBtn_active := false;
     isCameraActive := false;
     isScreenShareActive := false |}.

Definition loaded_browser : Browser :=
  {| world := page_world; page := idle_page |}.

Definition sharing_browser : Browser :=
  {| world := sharing_world;
     page := set_screen true true (set_displays "none" "block" idle_page) |}.

(** ** The settings dialog

    [saveSettings()] of the settings module writes the value of each input
    of the dialog to [localStorage]; the agent's constructor reads three of
    those keys. *)
Record SettingsInputs := {
  apiKeyInput : string;
  deepgramApiKeyInput : string;
  voiceSelect : string;
  sampleRateInput : string;
  systemInstructionsInput : string;
  temperatureInput : string;
  topPInput : string;
  topKInput : string;
  fpsInput : string;
  resizeWidthInput : string;
  qualityInput : string;
  harassmentInput : string;
  dangerousInput : string;
  sexualInput : string;
  civicInput : string
}.

Definition saveSettings (el : SettingsInputs) (storage : gmap string string)
  : gmap string string :=
  let storage := <["apiKey" := apiKeyInput el]> storage in
  let storage := <["deepgramApiKey" := deepgramApiKeyInput el]> storage in
  let storage := <["voiceName" := voiceSelect el]> storage in
  let storage := <["sampleRate" := sampleRateInput el]> storage in
  let storage := <["systemInstructions" := systemInstructionsInput el]> storage in
  let storage := <["temperature" := temperatureInput el]> storage in
  let storage := <["top_p" := topPInput el]> storage in
  let storage := <["top_k" := topKInput el]> storage in
  let storage := <["fps" := fpsInput el]> storage in
  let storage := <["resizeWidth" := resizeWidthInput el]> storage in
  let storage := <["quality" := qualityInput el]> storage in
  let storage := <["harassmentThreshold" := harassmentInput el]> storage in
  let storage :=
    <["dangerousContentThreshold" := dangerousInput el]> storage in
  let storage :=
    <["sexuallyExplicitThreshold" := sexualInput el]> storage in
  <["civicIntegrityThreshold" := civicInput el]> storage.

(** The runtime with another content of [localStorage]. *)
Definition with_storage (storage : gmap string string) (m : Machine)
  : Machine :=
  {| timers := timers m;
     nextTimer := nextTimer m;
     trace := trace m;
     env := {| localStorage := storage;
               transport := transport (env m);
               device := device (env m);
               frame := frame (env m);
               deepgram := deepgram (env m) |} |}.

Definition dialog_inputs : SettingsInputs :=
  {| apiKeyInput := "key";
     deepgramApiKeyInput := "";
     voiceSelect := "Aoede";
     sampleRateInput := "27000";
     systemInstructionsInput := "You are a helpful assistant";
     temperatureInput := "1.8";
     topPInput := "0.95";
     topKInput := "65";
     fpsInput := "2";
     resizeWidthInput := "800";
     qualityInput := "0.5";
     harassmentInput := "3";
     dangerousInput := "3";
     sexualInput := "3";
     civicInput := "3" |}.

(** ** Properties *)

(** Evaluates a method on a symbolic world, using what is known of a
    field. *)
Ltac run_with H := repeat progress (cbn; rewrite ?H).

(** The trace of the final world is the initial trace with calls appended. *)
Ltac grown := unfold record; cbn; rewrite <- ?app_assoc; reflexivity.

(** *** The trace grows by what is recorded *)

Lemma logged_nil (w : World) : logged [] w = w.
Proof.
  destruct w as [a [ts nt tr e]]; unfold logged; cbn.
  by rewrite app_nil_r.
Qed.

Lemma logged_logged (l1 l2 : list Call) (w : World) :
  logged l2 (logged l1 w) = logged (l1 ++ l2) w.
Proof. unfold logged; cbn. by rewrite app_assoc. Qed.

Lemma call_logged (c : Call) (w : World) : call c w = (Ok tt, logged [c] w).
Proof. reflexivity. Qed.

Lemma bind_ok {A B : Type} (m : M A) (k : A -> M B) (w w1 : World) (a : A) :
  m w = (Ok a, w1) -> bind m k w = k a w1.
Proof. intros E. unfold bind. by rewrite E. Qed.

Lemma for_each_call {A : Type} (f : A -> Call) (l : list A) (w : World) :
  for_each l (fun x => call (f x)) w = (Ok tt, logged (map f l) w).
Proof.
  revert w; induction l as [|x l IH]; intros w; cbn [for_each map].
  - by rewrite logged_nil.
  - unfold bind. rewrite call_logged, IH, logged_logged. reflexivity.
Qed.

Lemma emit_logged (eventName : string) (data : option string) (w : World) :
  emit eventName data w
  = (Ok tt, logged (listener_calls (this w) eventName data) w).
Proof.
  unfold emit, listener_calls, bind, get_this.
  destruct (_eventListeners (this w)) as [ls|]; cbn.
  - destruct (ls !! eventName) as [cbs|]; cbn.
    + apply for_each_call.
    + by rewrite logged_nil.
  - by rewrite logged_nil.
Qed.

(** *** Construction and connection *)

(** C10: with the tool manager omitted the constructor always throws.  A
    missing URL or configuration is reported first; otherwise reading the
    tool declarations through [null] raises a [TypeError]. *)
Theorem constructor_needs_toolManager (o : Options) (m : Machine) :
  opt_toolManager o = None ->
  (exists e, fst (constructor o m) = Throw e) /\
  (truthy_str (opt_url o) = true -> is_Some (opt_config o) ->
   exists msg, fst (constructor o m) = Throw (TypeError msg)).
Proof.
  intros Htm. unfold constructor. rewrite Htm. split.
  - destruct (truthy_str (opt_url o)); cbn; [|by eauto].
    destruct (opt_config o); cbn; by eauto.
  - intros -> [c ->]. cbn. by eauto.
Qed.

Lemma constructor_needs_toolManager_witness :
  opt_toolManager toolless_options = None /\
  exists msg,
    fst (constructor toolless_options (boot calm)) = Throw (TypeError msg).
Proof.
  split; [reflexivity|].
  apply (constructor_needs_toolManager toolless_options (boot calm));
    [reflexivity | reflexivity | by eexists].
Defined.

(** C9: without an endpoint URL or without a configuration the constructor
    throws an [Error] and touches nothing outside (no client is created, no
    connection attempted).  When [connect()] completes, [connected] is
    true, the client's transport is open and the handlers for [audio],
    [interrupted], [turn_complete] and [tool_call] are installed; when it
    rejects, [connected] is as before and the new client has neither. *)
Theorem construction_and_connect_contract :
  (forall (o : Options) (m : Machine),
     truthy_str (opt_url o) = false \/ opt_config o = None ->
     exists msg, constructor o m = (Throw (JsError msg), m)) /\
  (forall w w' : World,
     connect w = (Ok tt, w') ->
     connected (this w') = true /\
     exists c, client (this w') = Some c /\
               transport_open c = true /\
               handlers c
               = ["audio"; "interrupted"; "turn_complete"; "tool_call"]) /\
  (forall (w w' : World) (e : Exn),
     connect w = (Throw e, w') ->
     connected (this w') = connected (this w) /\
     exists c, client (this w') = Some c /\
               transport_open c = false /\ handlers c = []).
Proof.
  split; [|split].
  - intros o m H. unfold constructor.
    destruct (truthy_str (opt_url o)); cbn; [|by eauto].
    destruct H as [H|H]; [done|]. rewrite H. by eauto.
  - intros w w'.
    unfold connect, client_connect, setupEventListeners, client_do, bind,
      get_this, get_env, deref; cbn.
    destruct (transport (env (machine w))); cbn; [done|].
    intros [= <-]; cbn. split; [done|]. eexists; repeat split; done.
  - intros w w' e.
    unfold connect, client_connect, setupEventListeners, client_do, bind,
      get_this, get_env, deref; cbn.
    destruct (transport (env (machine w))); cbn; [|done].
    intros [= <- <-]; cbn. split; [done|]. eexists; repeat split; done.
Qed.

Lemma construction_and_connect_contract_witness :
  (exists msg,
     constructor urlless_options (boot calm)
     = (Throw (JsError msg), boot calm)) /\
  connect page_world = (Ok tt, connected_world) /\
  connected (this connected_world) = true.
Proof.
  destruct construction_and_connect_contract as (Hctor & Hconn & _).
  split; [apply Hctor; left; reflexivity|].
  assert (E : connect page_world = (Ok tt, connected_world))
    by (vm_compute; reflexivity).
  split; [exact E|]. exact (proj1 (Hconn _ _ E)).
Defined.

(** [connect] and [disconnect], the two methods that write [client] or
    [connected], keep a connected agent in possession of a client. *)
Lemma connect_linked (w : World) : linked (snd (connect w)).
Proof.
  unfold linked, connect, client_connect, setupEventListeners, client_do,
    bind, get_this, get_env, deref; cbn.
  destruct (transport (env (machine w))); cbn; by eauto.
Qed.

(** *** Capture needs a connection *)

(** C4: while [connected] is false, [startCameraCapture()] and
    [startScreenShare()] reject with their must-be-connected error and
    return the world as it was: no timer is created, no call reaches a
    capturer, and the interval fields keep their value ([null] stays
    [null]). *)
Theorem capture_requires_connection (w : World) :
  connected (this w) = false ->
  startCameraCapture w
    = (Throw (JsError "Must be connected to start camera capture"), w) /\
  startScreenShare w
    = (Throw (JsError "Websocket must be connected to start screen sharing"),
       w).
Proof.
  intros H. unfold startCameraCapture, startScreenShare, bind, get_this.
  cbn. rewrite H. cbn. done.
Qed.

Lemma capture_requires_connection_witness :
  connected (this page_world) = false /\
  cameraInterval (this (snd (startCameraCapture page_world))) = None /\
  screenInterval (this (snd (startScreenShare page_world))) = None /\
  timers (machine (snd (startCameraCapture page_world))) = ∅.
Proof.
  split; [reflexivity|].
  destruct (capture_requires_connection page_world eq_refl) as [-> ->].
  repeat split.
Defined.

(** *** Inbound audio and interruption *)

Lemma on_interrupted_run (w : World) (s : AudioStreamer) :
  audioStreamer (this w) = Some s ->
  on_interrupted w
  = (Ok tt,
     logged (StreamerStop :: listener_calls (this w) "interrupted" None)
       (with_streamer {| isInitialized := false; scheduled := [] |} w)).
Proof.
  intros H. unfold on_interrupted, streamer_do, bind, get_this, deref.
  cbn -[emit]. rewrite H. cbn -[emit]. rewrite emit_logged.
  unfold logged, with_streamer; cbn. by rewrite <- app_assoc.
Qed.

Lemma on_audio_run (data : ArrayBuffer) (w : World) (s : AudioStreamer) :
  audioStreamer (this w) = Some s ->
  on_audio data w
  = (Ok tt,
     logged ((if isInitialized s then [] else [StreamerInitialize])
             ++ StreamerStream data :: side_channel (this w) data)
       (with_streamer
          {| isInitialized := true; scheduled := scheduled s ++ [data] |} w)).
Proof.
  intros H.
  unfold on_audio, try_catch, bind, get_this, if_present, when, streamer_do,
    deref, new_Uint8Array, side_channel, logged, with_streamer.
  cbn. rewrite H. cbn.
  destruct s as [[] q]; cbn; rewrite ?H; cbn;
    destruct (modelTranscriber (this w)) as [[[]]|];
    unfold streamer_streamAudio, streamer_initialize; cbn;
    unfold record; cbn; rewrite <- ?app_assoc; reflexivity.
Qed.

(** Without a sink (connected, [initialize()] not yet called) the audio
    handler rejects and the interruption handler throws. *)
Lemma handlers_without_sink (w : World) (data : ArrayBuffer) :
  audioStreamer (this w) = None ->
  (exists msg, on_audio data w = (Throw (JsError msg), w)) /\
  (exists msg, on_interrupted w = (Throw (TypeError msg), w)).
Proof.
  intros H.
  unfold on_audio, on_interrupted, try_catch, streamer_do, bind, get_this,
    deref. cbn. rewrite H. cbn. by eauto.
Qed.

Lemma streamed_side_channel (a : Agent) (data : ArrayBuffer) :
  streamed (side_channel a data) = [].
Proof. unfold side_channel. by destruct (modelTranscriber a) as [[[]]|]. Qed.

(** C6: the audio handler reads the sink's [isInitialized] flag, calls
    [initialize()] exactly when the flag is false, and then hands the
    chunk's bytes, unchanged, to [streamAudio] once; the only other call is
    the copy for a connected model transcriber. *)
Theorem audio_chunk_forwarded_once (w : World) (s : AudioStreamer)
    (data : ArrayBuffer) :
  audioStreamer (this w) = Some s ->
  exists w',
    on_audio data w = (Ok tt, w') /\
    trace (machine w')
      = trace (machine w)
        ++ (if isInitialized s then [] else [StreamerInitialize])
        ++ StreamerStream data :: side_channel (this w) data /\
    streamed (trace (machine w')) = streamed (trace (machine w)) ++ [data] /\
    audioStreamer (this w')
      = Some {| isInitialized := true; scheduled := scheduled s ++ [data] |}.
Proof.
  intros H. eexists. split; [by apply on_audio_run|]. cbn.
  split; [done|]. split; [|done].
  unfold streamed. rewrite !omap_app. cbn.
  fold (streamed (side_channel (this w) data)).
  rewrite streamed_side_channel.
  by destruct (isInitialized s).
Qed.

Lemma audio_chunk_forwarded_once_witness :
  audioStreamer (this ready_world)
    = Some {| isInitialized := true; scheduled := [] |} /\
  streamed (trace (machine (snd (on_audio ["a"%byte; "b"%byte] ready_world))))
    = [["a"%byte; "b"%byte]].
Proof.
  split; [reflexivity|].
  destruct (audio_chunk_forwarded_once ready_world _
              ["a"%byte; "b"%byte] eq_refl) as (w' & E & _ & Hs & _).
  rewrite E. cbn [snd]. rewrite Hs. reflexivity.
Defined.

Lemma reprimed_listeners (p : bool) (a : Agent) (eventName : string)
    (data : option string) (tl : list Call) :
  reprimed p (listener_calls a eventName data ++ tl) = reprimed p tl.
Proof.
  unfold listener_calls.
  destruct (_eventListeners a) as [ls|]; [|done].
  destruct (ls !! eventName) as [cbs|]; [|done].
  induction cbs as [|cb cbs IH]; [done|]. cbn. exact IH.
Qed.

Lemma reprimed_side_channel (p : bool) (a : Agent) (data : ArrayBuffer)
    (tl : list Call) :
  reprimed p (side_channel a data ++ tl) = reprimed p tl.
Proof.
  unfold side_channel. by destruct (modelTranscriber a) as [[[]]|].
Qed.

(** One inbound event keeps the sink tracked, and what it records passes
    the scan. *)
Lemma handle_keeps_sink_tracked (ev : Inbound) (p : bool) (w : World) :
  sink_tracked p w ->
  exists new p',
    trace (machine (snd (handle ev w))) = trace (machine w) ++ new /\
    sink_tracked p' (snd (handle ev w)) /\
    forall tl, reprimed p' tl = true -> reprimed p (new ++ tl) = true.
Proof.
  intros (s & Hs & Hp). destruct ev as [data| | |tc]; cbn [handle].
  - rewrite (on_audio_run data w s Hs). eexists _, true. cbn.
    split; [reflexivity|]. split; [by eexists|].
    intros tl Htl. rewrite <- app_assoc. cbn.
    destruct (isInitialized s); cbn.
    + rewrite (Hp eq_refl). cbn. by rewrite reprimed_side_channel.
    + by rewrite reprimed_side_channel.
  - rewrite (on_interrupted_run w s Hs). eexists _, false. cbn.
    split; [reflexivity|]. split; [by eexists|].
    intros tl Htl. cbn. by rewrite reprimed_listeners.
  - unfold on_turn_complete, bind, console. rewrite call_logged.
    cbn -[emit]. rewrite emit_logged. eexists _, p. cbn.
    split; [by rewrite <- app_assoc|]. split; [by exists s|].
    intros tl Htl. cbn. by rewrite reprimed_listeners.
  - unfold on_tool_call, handleToolCall, bind, get_this, deref. cbn.
    destruct (tm_handleToolCall _ _) as [r|e]; cbn.
    + destruct (client (this w)); cbn.
      * eexists _, p. split; [by rewrite <- app_assoc|].
        split; [by exists s|]. done.
      * eexists _, p. split; [reflexivity|]. split; [by exists s|]. done.
    + eexists _, p. split; [reflexivity|]. split; [by exists s|]. done.
Qed.

Lemma deliver_reprimed (evs : list Inbound) (p : bool) (w : World) :
  sink_tracked p w ->
  exists later,
    trace (machine (deliver evs w)) = trace (machine w) ++ later /\
    reprimed p later = true.
Proof.
  revert p w. induction evs as [|ev evs IH]; intros p w Hw; cbn [deliver].
  - exists []. by rewrite app_nil_r.
  - destruct (handle_keeps_sink_tracked ev p w Hw)
      as (new & p' & Htr & Hw' & Hre).
    destruct (IH p' _ Hw') as (later & Hlater & Hok).
    exists (new ++ later). split; [|by apply Hre].
    by rewrite Hlater, Htr, <- app_assoc.
Qed.

(** C1: on [interrupted] the agent calls the sink's [stop()] and clears
    [isInitialized] (then notifies its own listeners).  The next audio
    chunk therefore finds the flag false, calls [initialize()] before
    [streamAudio], and is alone in the sink's schedule.  Whatever inbound
    events follow the interruption, every chunk streamed after it comes
    after an [initialize()] that is later than the last [stop()]. *)
Theorem interrupted_forces_reprime (w : World) (s : AudioStreamer) :
  audioStreamer (this w) = Some s ->
  exists w1,
    on_interrupted w = (Ok tt, w1) /\
    trace (machine w1)
      = trace (machine w)
        ++ StreamerStop :: listener_calls (this w) "interrupted" None /\
    audioStreamer (this w1)
      = Some {| isInitialized := false; scheduled := [] |} /\
    (forall data : ArrayBuffer, exists w2,
       on_audio data w1 = (Ok tt, w2) /\
       trace (machine w2)
         = trace (machine w1)
           ++ StreamerInitialize :: StreamerStream data
              :: side_channel (this w) data /\
       audioStreamer (this w2)
         = Some {| isInitialized := true; scheduled := [data] |}) /\
    (forall evs : list Inbound, exists later,
       trace (machine (deliver evs w1))
         = trace (machine w) ++ StreamerStop :: later /\
       reprimed false later = true).
Proof.
  intros Hs. eexists. split; [exact (on_interrupted_run w s Hs)|].
  split; [reflexivity|]. split; [reflexivity|]. split.
  - intros data. eexists. split; [by apply on_audio_run|]. by cbn.
  - intros evs.
    destruct (deliver_reprimed evs false
                (logged (StreamerStop
                         :: listener_calls (this w) "interrupted" None)
                   (with_streamer
                      {| isInitialized := false; scheduled := [] |} w)))
      as (later & Hlater & Hok).
    { by eexists. }
    exists (listener_calls (this w) "interrupted" None ++ later).
    split.
    + rewrite Hlater. cbn. by rewrite <- app_assoc.
    + by rewrite reprimed_listeners.
Qed.

Lemma interrupted_forces_reprime_witness :
  audioStreamer (this (snd (on_audio ["a"%byte] ready_world)))
    = Some {| isInitialized := true; scheduled := [["a"%byte]] |} /\
  streamed
    (drop (length (trace (machine ready_world)))
       (trace (machine
          (deliver [Interrupted; Audio ["b"%byte]; Audio ["c"%byte]]
             (snd (on_audio ["a"%byte] ready_world))))))
  = [["a"%byte]; ["b"%byte]; ["c"%byte]] /\
  exists w1,
    on_interrupted (snd (on_audio ["a"%byte] ready_world)) = (Ok tt, w1) /\
    audioStreamer (this w1)
      = Some {| isInitialized := false; scheduled := [] |}.
Proof.
  split; [reflexivity|]. split; [reflexivity|].
  destruct (interrupted_forces_reprime
              (snd (on_audio ["a"%byte] ready_world)) _ eq_refl)
    as (w1 & E & _ & Hs & _).
  exists w1. split; [exact E | exact Hs].
Defined.

(** *** Tool calls *)

(** C3: for a batch of one or more function calls, the agent hands the
    first call, and only it, to the tool manager, once, and passes the
    result to the client's [sendToolResponse], once.  When the tool
    manager keys its result by the call's id, the envelope is keyed to that
    id. *)
Theorem tool_call_first_call_one_response (w : World) (c : Client)
    (fc : FunctionCall) (others : list FunctionCall) (r : ToolResult) :
  client (this w) = Some c ->
  tm_handleToolCall (toolManager (this w)) (Some fc) = Ok r ->
  exists w',
    on_tool_call {| functionCalls := fc :: others |} w = (Ok tt, w') /\
    trace (machine w')
      = trace (machine w)
        ++ [ToolHandle (Some fc); ClientSendToolResponse r] /\
    tool_invocations (trace (machine w'))
      = tool_invocations (trace (machine w)) ++ [Some fc] /\
    tool_responses (trace (machine w'))
      = tool_responses (trace (machine w)) ++ [r] /\
    (result_id r = call_id fc ->
     toolResponse_envelope r
       = [{| response_id := call_id fc; response_body := result_output r |}]).
Proof.
  intros Hc Hr.
  unfold on_tool_call, handleToolCall, bind, get_this, deref. cbn.
  rewrite Hr. cbn. rewrite Hc. cbn. eexists. split; [reflexivity|]. cbn.
  rewrite <- app_assoc. cbn. split; [done|].
  unfold tool_invocations, tool_responses. rewrite !omap_app. cbn.
  split; [done|]. split; [done|].
  intros Hid. unfold toolResponse_envelope. by rewrite Hid.
Qed.

Lemma tool_call_first_call_one_response_witness :
  is_Some (client (this connected_world)) /\
  map toolResponse_envelope
    (tool_responses
       (trace (machine
          (snd (on_tool_call {| functionCalls := [abc_call] |}
                  connected_world)))))
  = [[{| response_id := "abc"; response_body := "googleSearch" |}]].
Proof.
  split; [by eexists|].
  destruct (tool_call_first_call_one_response connected_world _ abc_call []
              {| result_id := "abc"; result_output := "googleSearch" |}
              eq_refl eq_refl) as (w' & E & _ & _ & Hr & Hkey).
  rewrite E. cbn [snd]. rewrite Hr. cbn [map app tool_responses].
  reflexivity.
Defined.

(** *** [initialize] *)

(** C8: with a client (after [connect()]) and with every transcriber it
    starts getting its connection, [initialize()] completes, holds an
    initialized sink and an audio recorder, has [initialized] true, and has
    sent the one text turn ["."].  Without a client (before [connect()])
    it rejects and sends no text turn. *)
Theorem initialize_contract (w : World) :
  match client (this w) with
  | Some c =>
    transcription_answers w ->
    exists w',
      initialize w = (Ok tt, w') /\
      initialized (this w') = true /\
      audioStreamer (this w')
        = Some {| isInitialized := true; scheduled := [] |} /\
      audioRecorder (this w') = Some the_AudioRecorder /\
      exists new,
        trace (machine w') = trace (machine w) ++ new /\
        sent_texts new = ["."]
  | None =>
    exists msg w',
      initialize w = (Throw (JsError msg), w') /\
      exists new,
        trace (machine w') = trace (machine w) ++ new /\
        sent_texts new = []
  end.
Proof.
  unfold transcription_answers.
  destruct w as [a [ts nt tr [ls tp dv fr dg]]].
  destruct a as [ini con actx arec astr tms tus key rate fps cap rw q cman cint sman sint
                   tm cfg nm url cl vis mt ut mk uk evl].
  cbn. destruct cl as [c|].
  - intros Hans.
    destruct key as [[|ch key]|]; cbn in Hans.
    2:{ destruct (Hans eq_refl) as [Hm Hu].
        destruct tms, tus;
          try specialize (Hm eq_refl); try specialize (Hu eq_refl);
          vm_compute; rewrite ?Hm, ?Hu;
          (eexists; split; [reflexivity|]; repeat (split; [reflexivity|]);
           eexists; split; [fold (@app Call); rewrite <- ?app_assoc; reflexivity | reflexivity]). }
    all: vm_compute;
      (eexists; split; [reflexivity|]; repeat (split; [reflexivity|]);
       eexists; split; [fold (@app Call); rewrite <- ?app_assoc; reflexivity | reflexivity]).
  - destruct key as [[|ch key]|].
    2:{ destruct tms, tus;
          destruct (dg Model) eqn:Hm; destruct (dg User) eqn:Hu;
          vm_compute; rewrite ?Hm, ?Hu;
          (eexists _, _; split; [reflexivity|];
           eexists; split; [fold (@app Call); rewrite <- ?app_assoc; reflexivity | reflexivity]). }
    all: vm_compute;
      (eexists _, _; split; [reflexivity|];
       eexists; split; [fold (@app Call); rewrite <- ?app_assoc; reflexivity | reflexivity]).
Qed.

Lemma initialize_contract_witness :
  transcription_answers connected_world /\
  (exists w',
     initialize connected_world = (Ok tt, w') /\
     initialized (this w') = true) /\
  exists msg, fst (initialize page_world) = Throw (JsError msg).
Proof.
  assert (Hans : transcription_answers connected_world) by (intros H; done).
  split; [exact Hans|].
  pose proof (initialize_contract connected_world) as Hc.
  pose proof (initialize_contract page_world) as Hp.
  unfold connected_world at 1 in Hc. unfold page_world at 1 in Hp.
  cbn [client this] in Hc, Hp.
  destruct (Hc Hans) as (w' & E & Hi & _).
  destruct Hp as (msg & wp & Ep & _).
  split; [by exists w'|].
  exists msg. by rewrite Ep.
Defined.

(** Before [connect()] the rejected [initialize()] has already set
    [initialized]. *)
Example initialize_before_connect_sets_flag :
  fst (initialize page_world)
    = Throw (JsError "Error during the initialization of the client: Cannot read properties of null (reading 'name')") /\
  initialized (this (snd (initialize page_world))) = true.
Proof. vm_compute. done. Qed.

(** *** The screen source stops by itself *)

(** A timer that is not live, or of another kind, asks the capturer of
    [s] for nothing when it fires. *)
Lemma capture_free_quiet (s : Source) (w : World) :
  capture_free s w -> quiet s w.
Proof.
  intros Hfree id. unfold fire.
  destruct (timers (machine w) !! id) as [[s'|who]|] eqn:E.
  - assert (Hs : s' <> s) by (intros ->; exact (Hfree id E)).
    unfold capture_tick, capturer_capture, bind, get_this, get_env, deref.
    cbn. destruct (manager s' (this w)); cbn.
    + destruct (client (this w)); cbn.
      * eexists [_; _]. split; [by rewrite <- app_assoc|].
        rewrite !not_elem_of_cons. repeat split; [congruence|done|].
        apply not_elem_of_nil.
      * eexists [_]. split; [done|].
        rewrite not_elem_of_cons. split; [congruence|apply not_elem_of_nil].
    + exists []. split; [by rewrite app_nil_r|apply not_elem_of_nil].
  - unfold keepalive_tick, bind, get_this, deref, when, console.
    cbn. destruct (transcriber who (this w)) as [t|]; cbn.
    + destruct (isConnected t); cbn.
      * eexists [_; _]. split; [by rewrite <- app_assoc|].
        rewrite !not_elem_of_cons. repeat split; [done|done|].
        apply not_elem_of_nil.
      * exists []. split; [by rewrite app_nil_r|apply not_elem_of_nil].
    + exists []. split; [by rewrite app_nil_r|apply not_elem_of_nil].
  - exists []. split; [by rewrite app_nil_r|apply not_elem_of_nil].
Qed.

(** Clearing the held handle of a path whose only live timer it is leaves
    no capture timer of that path. *)
Lemma held_cleared_capture_free (s : Source) (w w' : World) :
  sole_capture_timer s w ->
  timers (machine w') ⊆ timers (machine w) ->
  (forall id,
     interval s (this w) = Some id -> timers (machine w') !! id = None) ->
  capture_free s w'.
Proof.
  intros Hsole Hsub Hdead id Hid.
  pose proof (lookup_weaken _ _ _ _ Hid Hsub) as Hw.
  specialize (Hdead id (Hsole id Hw)). congruence.
Qed.

(** C7: the [onStop] callback of the screen manager clears the interval
    held in [screenInterval], sets the field to [null] and calls every
    listener of [screenshare_stopped]; nothing else is needed from the
    caller.  The cleared handle is no longer live: if it fires, no capture
    runs.  When the held handle was the only live screen timer (no
    [startScreenShare()] overwrote the handle of an earlier one), no screen
    timer is live afterwards and whatever fires asks the screen capturer
    for nothing. *)
Theorem screen_stop_cancels_timer (w : World) :
  exists w',
    screen_onStop w = (Ok tt, w') /\
    screenInterval (this w') = None /\
    timers (machine w') = cleared (screenInterval (this w)) (timers (machine w)) /\
    trace (machine w')
      = trace (machine w)
        ++ match screenInterval (this w) with
           | Some id => [ClearInterval id]
           | None => []
           end
        ++ listener_calls (this w) "screenshare_stopped" None /\
    (forall id, screenInterval (this w) = Some id ->
       timers (machine w') !! id = None /\ fire id w' = (Ok tt, w')) /\
    (sole_capture_timer Screen w ->
     capture_free Screen w' /\ quiet Screen w').
Proof.
  assert (Hfree : forall w' : World,
            timers (machine w')
              = cleared (screenInterval (this w)) (timers (machine w)) ->
            sole_capture_timer Screen w ->
            capture_free Screen w' /\ quiet Screen w').
  { intros w' Ht Hsole.
    assert (capture_free Screen w'); [|by split; [|apply capture_free_quiet]].
    apply (held_cleared_capture_free Screen w w' Hsole); rewrite Ht.
    - destruct (screenInterval (this w)); [apply delete_subseteq | done].
    - cbn [interval]. intros id ->. apply lookup_delete_eq. }
  revert Hfree.
  unfold screen_onStop, bind, if_present, get_this.
  destruct (screenInterval (this w)) as [id|] eqn:E; cbn -[emit];
    rewrite ?E; cbn -[emit]; rewrite emit_logged; intros Hfree;
    eexists; (split; [reflexivity|]); cbn.
  - split; [done|]. split; [done|]. split; [by rewrite <- app_assoc|].
    split; [|by apply Hfree].
    intros id' [= <-]. split; [apply lookup_delete_eq|].
    unfold fire; cbn. by rewrite lookup_delete_eq.
  - repeat split; try done; by apply Hfree.
Qed.

Lemma sharing_world_sole_timer : sole_capture_timer Screen sharing_world.
Proof.
  intros id Hid.
  change (timers (machine sharing_world))
    with (<[1%positive := CaptureTick Screen]> (∅ : gmap positive TimerKind))
    in Hid.
  destruct (decide (id = 1%positive)) as [->|Hne]; [reflexivity|].
  rewrite lookup_insert_ne in Hid by done. by rewrite lookup_empty in Hid.
Defined.

Lemma screen_stop_cancels_timer_witness :
  screenInterval (this sharing_world) = Some 1%positive /\
  timers (machine sharing_world) !! 1%positive = Some (CaptureTick Screen) /\
  sole_capture_timer Screen sharing_world /\
  exists w',
    screen_onStop sharing_world = (Ok tt, w') /\
    trace (machine w')
      = trace (machine sharing_world)
        ++ [ClearInterval 1; Listener 7 "screenshare_stopped" None] /\
    fire 1 w' = (Ok tt, w') /\
    capture_free Screen w' /\
    quiet Screen w'.
Proof.
  split; [reflexivity|]. split; [reflexivity|].
  split; [exact sharing_world_sole_timer|].
  destruct (screen_stop_cancels_timer sharing_world)
    as (w' & E & _ & _ & Htr & Hfire & Hsole).
  exists w'. split; [exact E|]. split; [exact Htr|].
  split; [exact (proj2 (Hfire 1%positive eq_refl))|].
  exact (Hsole sharing_world_sole_timer).
Defined.

(** After two [startScreenShare()] in a row the callback clears the second
    timer only: the first is still live, and when it fires a frame is
    captured and sent. *)
Lemma screen_stop_leaves_earlier_timer :
  fst (startScreenShare sharing_world) = Ok tt /\
  twice_shared_world = snd (startScreenShare sharing_world) /\
  screenInterval (this twice_shared_world) = Some 2%positive /\
  fst (screen_onStop twice_shared_world) = Ok tt /\
  screenInterval (this (snd (screen_onStop twice_shared_world))) = None /\
  timers (machine (snd (screen_onStop twice_shared_world))) !! 1%positive
    = Some (CaptureTick Screen) /\
  fire 1 (snd (screen_onStop twice_shared_world))
    = (Ok tt,
       logged [CapturerCapture Screen; ClientSendImage "screen-frame"]
         (snd (screen_onStop twice_shared_world))) /\
  ~ quiet Screen (snd (screen_onStop twice_shared_world)).
Proof.
  assert (Hfire : fire 1 (snd (screen_onStop twice_shared_world))
    = (Ok tt,
       logged [CapturerCapture Screen; ClientSendImage "screen-frame"]
         (snd (screen_onStop twice_shared_world))))
    by (vm_compute; reflexivity).
  do 6 (split; [vm_compute; reflexivity|]).
  split; [exact Hfire|].
  intros Hq. destruct (Hq 1%positive) as (new & Htr & Hnot).
  rewrite Hfire in Htr. cbn [snd logged machine trace] in Htr.
  apply app_inv_head in Htr. subst new.
  apply Hnot. by constructor.
Qed.

(** *** Teardown *)

Lemma cleared_subseteq (handle : option positive)
    (ts : gmap positive TimerKind) :
  cleared handle ts ⊆ ts.
Proof. destruct handle; [apply delete_subseteq | done]. Qed.

Lemma cleared_dead (id : positive) (ts : gmap positive TimerKind) :
  cleared (Some id) ts !! id = None.
Proof. apply lookup_delete_eq. Qed.

Lemma stopCameraCapture_run (w : World) :
  exists new,
    stopCameraCapture w
    = (Ok tt,
       {| this := set_cameraManager (disposed (cameraManager (this w)))
                    (set_cameraInterval None (this w));
          machine :=
            {| timers := cleared (cameraInterval (this w)) (timers (machine w));
               nextTimer := nextTimer (machine w);
               trace := trace (machine w) ++ new;
               env := env (machine w) |} |}).
Proof.
  destruct w as [a m].
  destruct a as [ini con actx arec astr tms tus key rate fps cap rw q cman cint sman sint
                   tm cfg nm url cl vis mt ut mk uk evl].
  unfold stopCameraCapture, if_present, capturer_dispose, bind, get_this,
    console. cbn.
  destruct cint, cman;
    repeat progress
      (cbn; unfold call, record, set_manager, set_cameraManager,
         set_cameraInterval);
    eexists; rewrite <- ?app_assoc; reflexivity.
Qed.

Lemma stopScreenShare_run (w : World) :
  exists new,
    stopScreenShare w
    = (Ok tt,
       {| this := set_screenManager (disposed (screenManager (this w)))
                    (set_screenInterval None (this w));
          machine :=
            {| timers := cleared (screenInterval (this w)) (timers (machine w));
               nextTimer := nextTimer (machine w);
               trace := trace (machine w) ++ new;
               env := env (machine w) |} |}).
Proof.
  destruct w as [a m].
  destruct a as [ini con actx arec astr tms tus key rate fps cap rw q cman cint sman sint
                   tm cfg nm url cl vis mt ut mk uk evl].
  unfold stopScreenShare, if_present, capturer_dispose, bind, get_this,
    console. cbn.
  destruct sint, sman;
    repeat progress
      (cbn; unfold call, record, set_manager, set_screenManager,
         set_screenInterval);
    eexists; rewrite <- ?app_assoc; reflexivity.
Qed.

Lemma untouched_refl (w : World) : untouched w w.
Proof. by split. Qed.

Lemma untouched_trans (w1 w2 w3 : World) :
  untouched w1 w2 -> untouched w2 w3 -> untouched w1 w3.
Proof.
  intros [] []. split; try congruence. by etrans.
Qed.

Lemma tidy_bind (m k : M unit) : tidy m -> tidy k -> tidy (m ;; k).
Proof.
  intros Hm Hk w. destruct (Hm w) as (w1 & E1 & U1).
  destruct (Hk w1) as (w2 & E2 & U2). exists w2.
  split; [by rewrite (bind_ok _ _ _ _ _ E1) | by eapply untouched_trans].
Qed.

Lemma tidy_if_present {A : Type} (field : Agent -> option A)
    (k : A -> M unit) :
  (forall x, tidy (k x)) -> tidy (if_present field k).
Proof.
  intros Hk w. unfold if_present, bind, get_this.
  destruct (field (this w)) as [x|]; [apply Hk|].
  exists w. split; [done | apply untouched_refl].
Qed.

Lemma tidy_call (c : Call) : tidy (call c).
Proof. intros w. eexists. split; [reflexivity|]. by split. Qed.

Lemma tidy_clearInterval (id : positive) : tidy (clearInterval id).
Proof.
  intros w. eexists. split; [reflexivity|]. split; try done.
  apply delete_subseteq.
Qed.

Lemma tidy_update (f : Agent -> Agent) :
  (forall a, cameraInterval (f a) = cameraInterval a /\
             screenInterval (f a) = screenInterval a /\
             cameraManager (f a) = cameraManager a /\
             screenManager (f a) = screenManager a /\
             client (f a) = client a /\
             connected (f a) = connected a /\
             initialized (f a) = initialized a) ->
  tidy (update f).
Proof.
  intros Hf w. destruct (Hf (this w)) as (?&?&?&?&?&?&?).
  eexists. split; [reflexivity|]. by split.
Qed.

Ltac tidy_up :=
  repeat first
    [ apply tidy_bind
    | apply tidy_if_present; intros ?
    | apply tidy_call
    | apply tidy_clearInterval
    | apply tidy_update; intros ?; by repeat split ].

(** Runs the next statement of a sequence when it is a [tidy] one. *)
Ltac tidy_step w1 E U :=
  lazymatch goal with
  | |- context [bind ?m ?k ?w] =>
    let T := fresh "T" in
    assert (T : tidy m) by tidy_up;
    destruct (T w) as (w1 & E & U); clear T;
    rewrite (bind_ok m k w w1 tt E)
  end.

(** [disconnect()] up to the client: both capturers are stopped, every
    guarded release completes, and then the call on the client decides: with
    a client the agent is reset, without one the [TypeError] is wrapped and
    rethrown before the flags are written. *)
Lemma disconnect_run (w : World) :
  exists w',
    untouched
      {| this := set_screenManager (disposed (screenManager (this w)))
                   (set_screenInterval None
                      (set_cameraManager (disposed (cameraManager (this w)))
                         (set_cameraInterval None (this w))));
         machine :=
           {| timers := cleared (screenInterval (this w))
                          (cleared (cameraInterval (this w))
                             (timers (machine w)));
              nextTimer := nextTimer (machine w);
              trace := trace (machine w);
              env := env (machine w) |} |} w' /\
    match client (this w) with
    | Some _ =>
      exists new,
      disconnect w
      = (Ok tt,
         logged (ClientDisconnect :: new)
           {| this := set_connected false
                        (set_initialized false (set_client None (this w')));
              machine := machine w' |})
    | None =>
      disconnect w
      = (Throw (JsError ("Disconnect error:" +:+ exn_to_string
           (TypeError "Cannot read properties of null (reading 'disconnect')"))),
         w')
    end.
Proof.
  unfold disconnect, try_catch.
  destruct (stopCameraCapture_run w) as (n1 & E1).
  rewrite (bind_ok _ _ _ _ _ E1).
  match goal with |- context [bind stopScreenShare _ ?w1] =>
    destruct (stopScreenShare_run w1) as (n2 & E2) end.
  rewrite (bind_ok _ _ _ _ _ E2).
  cbn [this machine timers nextTimer trace env] in *.
  clear E1 E2.
  tidy_step w3 E3 U3. tidy_step w4 E4 U4. tidy_step w5 E5 U5.
  tidy_step w6 E6 U6. tidy_step w7 E7 U7. tidy_step w8 E8 U8.
  clear E3 E4 E5 E6 E7 E8.
  pose proof (untouched_trans _ _ _
                (untouched_trans _ _ _
                   (untouched_trans _ _ _
                      (untouched_trans _ _ _
                         (untouched_trans _ _ _ U3 U4) U5) U6) U7) U8) as U.
  clear U3 U4 U5 U6 U7 U8.
  exists w8. split.
  - destruct U. by split.
  - pose proof (same_client _ _ U) as Hc. cbn in Hc.
    unfold bind, get_this, deref. cbn. rewrite Hc.
    destruct (client (this w)); cbn.
    + eexists. unfold logged, record. cbn. rewrite <- ?app_assoc. reflexivity.
    + reflexivity.
Qed.

Lemma disconnect_without_client (w : World) :
  client (this w) = None ->
  exists w',
    disconnect w
    = (Throw (JsError "Disconnect error:TypeError: Cannot read properties of null (reading 'disconnect')"),
       w') /\
    connected (this w') = connected (this w) /\
    initialized (this w') = initialized (this w) /\
    cameraInterval (this w') = None /\
    screenInterval (this w') = None.
Proof.
  intros Hc. destruct (disconnect_run w) as (w' & U & E).
  rewrite Hc in E. exists w'. split; [exact E|].
  destruct U as [U1 U2 U3 U4 U5 U6 U7 U8]. cbn in *. done.
Qed.

Lemma disconnect_with_client (w : World) (c : Client) :
  client (this w) = Some c ->
  exists w',
    disconnect w = (Ok tt, w') /\
    connected (this w') = false /\
    initialized (this w') = false /\
    client (this w') = None /\
    cameraInterval (this w') = None /\
    screenInterval (this w') = None /\
    cameraManager (this w') = disposed (cameraManager (this w)) /\
    screenManager (this w') = disposed (screenManager (this w)) /\
    timers (machine w') ⊆ timers (machine w) /\
    (forall id,
       cameraInterval (this w) = Some id \/ screenInterval (this w) = Some id ->
       timers (machine w') !! id = None).
Proof.
  intros Hc. destruct (disconnect_run w) as (w' & U & E).
  rewrite Hc in E. destruct E as (new & E). eexists. split; [exact E|].
  destruct U as [U1 U2 U3 U4 U5 U6 U7 U8]. cbn in *.
  repeat (split; [done|]). split.
  - etrans; [exact U8|]. etrans; apply cleared_subseteq.
  - intros id Hid. eapply lookup_weaken_None; [|exact U8].
    destruct Hid as [H|H]; rewrite H.
    + eapply lookup_weaken_None; [apply cleared_dead | apply cleared_subseteq].
    + apply cleared_dead.
Qed.

Lemma disconnect_linked (w : World) :
  linked w -> linked (snd (disconnect w)).
Proof.
  unfold linked. intros Hw. destruct (client (this w)) as [c|] eqn:Hc.
  - destruct (disconnect_with_client w c Hc) as (w' & -> & F & _).
    cbn. by rewrite F.
  - destruct (disconnect_without_client w Hc) as (w' & -> & F & _).
    cbn. rewrite F. intros Hconn. destruct (Hw Hconn) as [c' Hc']. done.
Qed.

(** C2: the second of two [disconnect()] calls in a row does not complete.
    The first call leaves [client] null, and the second reaches the
    unguarded [this.client.disconnect()], whose [TypeError] is wrapped and
    rethrown; the same happens on an agent that never connected. *)
Theorem disconnect_twice_second_rejects :
  fst (disconnect connected_world) = Ok tt /\
  fst (disconnect (snd (disconnect connected_world)))
    = Throw (JsError "Disconnect error:TypeError: Cannot read properties of null (reading 'disconnect')") /\
  fst (disconnect page_world)
    = Throw (JsError "Disconnect error:TypeError: Cannot read properties of null (reading 'disconnect')").
Proof. vm_compute. done. Qed.

(** After a rejected [initialize()] on an agent that never connected,
    [disconnect()] rejects as well and leaves [initialized] set. *)
Example disconnect_leaves_initialized_set :
  initialized (this (snd (disconnect (snd (initialize page_world))))) = true.
Proof. vm_compute. done. Qed.

(** *** A capturer that cannot start *)





(** The message of the rejection when the device's error has an empty
    message: the bare name follows the prefix. *)
Example capturer_failure_empty_message :
  fst (startScreenShare
         {| this := this withdrawn_world;
            machine :=
              {| timers := timers (machine withdrawn_world);
                 nextTimer := nextTimer (machine withdrawn_world);
                 trace := trace (machine withdrawn_world);
                 env := {| localStorage := ∅;
                           transport := None;
                           device := fun _ => Some (JsError "");
                           frame := fun _ => "";
                           deepgram := fun _ => None |} |} |})
    = Throw (JsError "Failed to start screen sharing: Error").
Proof. vm_compute. reflexivity. Qed.


(** *** What every computation keeps *)

Section Keeps.
Context (I : World -> Prop).

Lemma keeps_ret {A : Type} (a : A) : keeps I (ret a).
Proof. by intros w H. Qed.

Lemma keeps_throw {A : Type} (e : Exn) : keeps I (@throw A e).
Proof. by intros w H. Qed.

Lemma keeps_get_this : keeps I get_this.
Proof. by intros w H. Qed.

Lemma keeps_get_env : keeps I get_env.
Proof. by intros w H. Qed.

Lemma keeps_pure {A : Type} (x : Outcome A) : keeps I (fun w => (x, w)).
Proof. by intros w H. Qed.

Lemma keeps_deref {A : Type} (member : string) (o : option A) :
  keeps I (deref member o).
Proof. by destruct o; intros w H. Qed.

Lemma keeps_bind {A B : Type} (m : M A) (k : A -> M B) :
  keeps I m -> (forall a, keeps I (k a)) -> keeps I (bind m k).
Proof.
  intros Hm Hk w H. unfold bind. specialize (Hm w H).
  destruct (m w) as [[a|e] w1]; cbn in *; [by apply Hk | done].
Qed.

Lemma keeps_try_catch {A : Type} (body : M A) (handler : Exn -> M A) :
  keeps I body -> (forall e, keeps I (handler e)) ->
  keeps I (try_catch body handler).
Proof.
  intros Hb Hh w H. unfold try_catch. specialize (Hb w H).
  destruct (body w) as [[a|e] w1]; cbn in *; [done | by apply Hh].
Qed.

Lemma keeps_when (b : bool) (m : M unit) : keeps I m -> keeps I (when b m).
Proof. destruct b; [done | intros _; apply keeps_ret]. Qed.

Lemma keeps_if_present {A : Type} (field : Agent -> option A)
    (k : A -> M unit) :
  (forall x, keeps I (k x)) -> keeps I (if_present field k).
Proof.
  intros Hk. unfold if_present. apply keeps_bind; [apply keeps_get_this|].
  intros a. destruct (field a); [apply Hk | apply keeps_ret].
Qed.

Lemma keeps_for_each {A : Type} (l : list A) (k : A -> M unit) :
  (forall x, keeps I (k x)) -> keeps I (for_each l k).
Proof.
  intros Hk. induction l as [|x l IH]; cbn [for_each].
  - apply keeps_ret.
  - apply keeps_bind; [apply Hk | intros _; exact IH].
Qed.
End Keeps.

(** Walks a method's body, statement by statement; [prim] settles the
    statements that touch what the property depends on. *)
Ltac keep_step prim :=
  cbv beta;
  lazymatch goal with
  | |- keeps _ (ret _) => apply keeps_ret
  | |- keeps _ (throw _) => apply keeps_throw
  | |- keeps _ get_this => apply keeps_get_this
  | |- keeps _ get_env => apply keeps_get_env
  | |- keeps _ (deref _ _) => apply keeps_deref
  | |- keeps _ (fun w => (_, w)) => apply keeps_pure
  | |- keeps _ (bind _ _) => first [prim | apply keeps_bind; [|intros ?]]
  | |- keeps _ (try_catch _ _) => apply keeps_try_catch; [|intros ?]
  | |- keeps _ (when _ _) => apply keeps_when
  | |- keeps _ (if_present _ _) =>
    first [prim | apply keeps_if_present; intros ?]
  | |- keeps _ (for_each _ _) => apply keeps_for_each; intros ?
  | |- keeps _ (console _ _) => unfold console
  | |- keeps _ (match ?x with _ => _ end) => destruct x
  | |- keeps _ _ => prim
  end.

Ltac keep_walk prim := repeat keep_step prim.

(** *** A connected agent holds a client *)

Lemma keeps_linked_call (c : Call) : keeps linked (call c).
Proof. by intros w H. Qed.

Lemma keeps_linked_setInterval (kind : TimerKind) :
  keeps linked (setInterval kind).
Proof. by intros w H. Qed.

Lemma keeps_linked_clearInterval (id : positive) :
  keeps linked (clearInterval id).
Proof. by intros w H. Qed.

Lemma keeps_linked_update (f : Agent -> Agent) :
  (forall a, same_link a (f a)) -> keeps linked (update f).
Proof.
  intros Hf w H. unfold linked in *. cbn.
  destruct (Hf (this w)) as [-> ->]. exact H.
Qed.

Lemma keeps_linked_connect : keeps linked connect.
Proof. intros w _. apply connect_linked. Qed.

Lemma keeps_linked_disconnect : keeps linked disconnect.
Proof. intros w. apply disconnect_linked. Qed.

Ltac linked_prim :=
  idtac;
  lazymatch goal with
  | |- keeps _ connect => apply keeps_linked_connect
  | |- keeps _ disconnect => apply keeps_linked_disconnect
  | |- keeps _ (call _) => apply keeps_linked_call
  | |- keeps _ (setInterval _) => apply keeps_linked_setInterval
  | |- keeps _ (clearInterval _) => apply keeps_linked_clearInterval
  | |- keeps _ (update _) =>
    apply keeps_linked_update; intros ?; split; reflexivity
  end.

Lemma keeps_linked_fire (id : positive) : keeps linked (fire id).
Proof.
  intros w. unfold fire.
  destruct (timers (machine w) !! id) as [[[]|who]|]; [| | |done].
  - revert w. change (keeps linked (capture_tick Camera)).
    unfold capture_tick, capturer_capture. keep_walk linked_prim.
  - revert w. change (keeps linked (capture_tick Screen)).
    unfold capture_tick, capturer_capture. keep_walk linked_prim.
  - revert w. change (keeps linked (keepalive_tick who)).
    unfold keepalive_tick. keep_walk linked_prim.
Qed.

Lemma keeps_linked_perform (act : Action) : keeps linked (perform act).
Proof.
  destruct act as [| | |text| | | | |eventName callback|ev|id|]; cbn [perform].
  - keep_walk linked_prim.
  - keep_walk linked_prim.
  - unfold initialize, initializeModelSpeechTranscriber,
      initializeUserSpeechTranscriber, streamer_do, console.
    keep_walk linked_prim.
  - unfold sendText, emit. keep_walk linked_prim.
  - unfold startCameraCapture, capturer_initialize, console.
    keep_walk linked_prim.
  - unfold stopCameraCapture, capturer_dispose, console.
    keep_walk linked_prim.
  - unfold startScreenShare, stopScreenShare, capturer_initialize,
      capturer_dispose, console.
    keep_walk linked_prim.
  - unfold stopScreenShare, capturer_dispose, console.
    keep_walk linked_prim.
  - unfold on. keep_walk linked_prim.
  - destruct ev as [data| | |toolCall]; cbn [handle];
      unfold on_audio, on_interrupted, on_turn_complete, on_tool_call,
        handleToolCall, streamer_do, emit, console;
      keep_walk linked_prim.
  - apply keeps_linked_fire.
  - unfold screen_onStop, emit. keep_walk linked_prim.
Qed.

(** *** The timer discipline *)

Lemma slot_field_set (s s' : Slot) (v : option positive) (a : Agent) :
  slot_field s' (slot_set s v a) = if decide (s' = s) then v else slot_field s' a.
Proof. by destruct s, s'. Qed.

Lemma slot_kind_inj (s s' : Slot) : slot_kind s = slot_kind s' -> s = s'.
Proof. by destruct s, s'. Qed.

Lemma keeps_timers_call (c : Call) : keeps timers_sound (call c).
Proof. by intros w H. Qed.

Lemma keeps_timers_update (f : Agent -> Agent) :
  (forall a, same_handles a (f a)) -> keeps timers_sound (update f).
Proof.
  intros Hf w [Hfresh Hheld]. split; [exact Hfresh|].
  intros s id. cbn. rewrite (Hf (this w) s). apply Hheld.
Qed.

(** [this.field = setInterval(...)] *)
Lemma setInterval_assigned_sound (s : Slot) (w : World) :
  timers_sound w ->
  timers_sound
    (snd (update (slot_set s (Some (nextTimer (machine w))))
            (snd (setInterval (slot_kind s) w)))).
Proof.
  intros [Hfresh Hheld]. split.
  - intros id kind. cbn. intros [[<- _]|[Hne Hid]]%lookup_insert_Some.
    + lia.
    + specialize (Hfresh id kind Hid). lia.
  - intros s' id. cbn. rewrite slot_field_set.
    destruct (decide (s' = s)) as [->|Hne].
    + intros [= <-]. apply lookup_insert_eq.
    + intros Hid. rewrite lookup_insert_ne; [by apply Hheld|].
      specialize (Hfresh id _ (Hheld s' id Hid)). lia.
Qed.

Lemma keeps_timers_arm {A : Type} (s : Slot) (rest : unit -> M A) :
  (forall u, keeps timers_sound (rest u)) ->
  keeps timers_sound
    (bind (setInterval (slot_kind s))
       (fun id => bind (update (slot_set s (Some id))) rest)).
Proof.
  intros Hrest w H. unfold bind at 1 2. cbn [setInterval update].
  apply Hrest. exact (setInterval_assigned_sound s w H).
Qed.

Lemma keeps_timers_arm_last (s : Slot) :
  keeps timers_sound
    (bind (setInterval (slot_kind s))
       (fun id => update (slot_set s (Some id)))).
Proof.
  intros w H. unfold bind. cbn [setInterval].
  exact (setInterval_assigned_sound s w H).
Qed.

(** [if (this.field) { clearInterval(this.field); this.field = null; }] *)
Lemma keeps_timers_disarm (s : Slot) :
  keeps timers_sound
    (if_present (slot_field s)
       (fun id => bind (clearInterval id)
                    (fun _ => update (slot_set s None)))).
Proof.
  intros w [Hfresh Hheld]. unfold if_present, bind, get_this.
  destruct (slot_field s (this w)) as [id|] eqn:Hs; [|by split].
  cbn. split.
  - intros id' kind. cbn. intros [_ Hid]%lookup_delete_Some.
    by apply (Hfresh id' kind).
  - intros s' id'. cbn. rewrite slot_field_set.
    destruct (decide (s' = s)) as [->|Hne]; [done|].
    intros Hid'. rewrite lookup_delete_ne; [by apply Hheld|].
    intros <-. apply Hne, slot_kind_inj.
    pose proof (Hheld s id Hs) as H1. pose proof (Hheld s' id Hid') as H2.
    congruence.
Qed.

Ltac timers_prim :=
  idtac;
  lazymatch goal with
  | |- keeps _ (bind (setInterval (CaptureTick Camera)) _) =>
    apply (keeps_timers_arm CameraSlot); intros ?
  | |- keeps _ (bind (setInterval (CaptureTick Screen)) _) =>
    apply (keeps_timers_arm ScreenSlot); intros ?
  | |- keeps _ (bind (setInterval (KeepAlive Model)) _) =>
    apply (keeps_timers_arm_last ModelSlot)
  | |- keeps _ (bind (setInterval (KeepAlive User)) _) =>
    apply (keeps_timers_arm_last UserSlot)
  | |- keeps _ (if_present cameraInterval _) =>
    apply (keeps_timers_disarm CameraSlot)
  | |- keeps _ (if_present screenInterval _) =>
    apply (keeps_timers_disarm ScreenSlot)
  | |- keeps _ (if_present modelsKeepAliveInterval _) =>
    apply (keeps_timers_disarm ModelSlot)
  | |- keeps _ (if_present userKeepAliveInterval _) =>
    apply (keeps_timers_disarm UserSlot)
  | |- keeps _ (call _) => apply keeps_timers_call
  | |- keeps _ (update _) =>
    apply keeps_timers_update; intros ? []; reflexivity
  end.

Lemma keeps_timers_stopCameraCapture : keeps timers_sound stopCameraCapture.
Proof.
  unfold stopCameraCapture, capturer_dispose, console.
  keep_walk timers_prim.
Qed.

Lemma keeps_timers_stopScreenShare : keeps timers_sound stopScreenShare.
Proof.
  unfold stopScreenShare, capturer_dispose, console.
  keep_walk timers_prim.
Qed.

Lemma keeps_timers_disconnect : keeps timers_sound disconnect.
Proof.
  unfold disconnect.
  apply keeps_try_catch; [|intros e; apply keeps_throw].
  apply keeps_bind; [apply keeps_timers_stopCameraCapture | intros _].
  apply keeps_bind; [apply keeps_timers_stopScreenShare | intros _].
  unfold console. keep_walk timers_prim.
Qed.

Lemma keeps_timers_fire (id : positive) : keeps timers_sound (fire id).
Proof.
  intros w. unfold fire.
  destruct (timers (machine w) !! id) as [[[]|who]|]; [| | |done].
  - revert w. change (keeps timers_sound (capture_tick Camera)).
    unfold capture_tick, capturer_capture. keep_walk timers_prim.
  - revert w. change (keeps timers_sound (capture_tick Screen)).
    unfold capture_tick, capturer_capture. keep_walk timers_prim.
  - revert w. change (keeps timers_sound (keepalive_tick who)).
    unfold keepalive_tick. keep_walk timers_prim.
Qed.

Lemma keeps_timers_perform (act : Action) : keeps timers_sound (perform act).
Proof.
  destruct act as [| | |text| | | | |eventName callback|ev|id|]; cbn [perform].
  - unfold connect, client_connect, setupEventListeners, client_do.
    keep_walk timers_prim.
  - apply keeps_timers_disconnect.
  - unfold initialize, initializeModelSpeechTranscriber,
      initializeUserSpeechTranscriber, streamer_do, console.
    keep_walk timers_prim.
  - unfold sendText, emit. keep_walk timers_prim.
  - unfold startCameraCapture.
    apply keeps_bind; [apply keeps_get_this | intros a].
    destruct (negb (connected a)); [apply keeps_throw|].
    apply keeps_try_catch.
    + unfold capturer_initialize, console. keep_walk timers_prim.
    + intros e. apply keeps_bind; [apply keeps_timers_disconnect|].
      intros _. apply keeps_throw.
  - apply keeps_timers_stopCameraCapture.
  - unfold startScreenShare.
    apply keeps_bind; [apply keeps_get_this | intros a].
    destruct (negb (connected a)); [apply keeps_throw|].
    apply keeps_try_catch.
    + unfold capturer_initialize, console. keep_walk timers_prim.
    + intros e. apply keeps_bind; [apply keeps_timers_stopScreenShare|].
      intros _. apply keeps_throw.
  - apply keeps_timers_stopScreenShare.
  - unfold on. keep_walk timers_prim.
  - destruct ev as [data| | |toolCall]; cbn [handle];
      unfold on_audio, on_interrupted, on_turn_complete, on_tool_call,
        handleToolCall, streamer_do, emit, console;
      keep_walk timers_prim.
  - apply keeps_timers_fire.
  - unfold screen_onStop, emit. keep_walk timers_prim.
Qed.

(** *** [disconnect()], step by step *)

Lemma evolved_evolved (a a' : Agent) (ts ts' : gmap positive TimerKind)
    (new new' : list Call) (w : World) :
  evolved a' ts' new' (evolved a ts new w) = evolved a' ts' (new ++ new') w.
Proof. unfold evolved; cbn. by rewrite app_assoc. Qed.

Lemma evolved_id (w : World) :
  evolved (this w) (timers (machine w)) [] w = w.
Proof.
  destruct w as [a [ts nt tr e]]. unfold evolved; cbn. by rewrite app_nil_r.
Qed.

Lemma stopCameraCapture_evolved (w : World) :
  exists new,
    stopCameraCapture w
    = (Ok tt,
       evolved
         (set_cameraManager (disposed (cameraManager (this w)))
            (set_cameraInterval None (this w)))
         (cleared (cameraInterval (this w)) (timers (machine w))) new w).
Proof. exact (stopCameraCapture_run w). Qed.

Lemma stopScreenShare_evolved (w : World) :
  exists new,
    stopScreenShare w
    = (Ok tt,
       evolved
         (set_screenManager (disposed (screenManager (this w)))
            (set_screenInterval None (this w)))
         (cleared (screenInterval (this w)) (timers (machine w))) new w).
Proof. exact (stopScreenShare_run w). Qed.

(** [if (this.field) { this.field.method(); this.field = null; }] *)
Lemma release_evolved {A : Type} (field : Agent -> option A)
    (set : option A -> Agent -> Agent) (c : Call) (w : World) :
  (forall a, field a = None -> set None a = a) ->
  exists new,
    if_present field (fun _ => call c ;; update (set None)) w
    = (Ok tt, evolved (set None (this w)) (timers (machine w)) new w).
Proof.
  intros Hset. unfold if_present, bind, get_this.
  destruct (field (this w)) eqn:Hf; cbn.
  - exists [c]. reflexivity.
  - exists []. rewrite (Hset _ Hf). by rewrite evolved_id.
Qed.

(** The release of a transcriber, with its keep-alive timer. *)
Lemma release_transcriber_evolved (field : Agent -> option Transcriber)
    (set : option Transcriber -> Agent -> Agent) (s : Slot) (c : Call)
    (w : World) :
  (forall a, field a = None -> slot_set s (slot_field s a) (set None a) = a) ->
  (forall v a, slot_field s (set v a) = slot_field s a) ->
  (forall a, slot_field s a = None -> slot_set s None a = a) ->
  exists new,
    if_present field (fun _ =>
      call c ;;
      update (set None) ;;
      if_present (slot_field s) (fun id =>
        clearInterval id ;;
        update (slot_set s None))) w
    = (Ok tt,
       evolved
         (slot_set s
            (match field (this w) with
             | Some _ => None
             | None => slot_field s (this w)
             end)
            (set None (this w)))
         (cleared (match field (this w) with
                   | Some _ => slot_field s (this w)
                   | None => None
                   end) (timers (machine w)))
         new w).
Proof.
  intros Hnone Hframe Hslot. unfold if_present, bind, get_this.
  destruct (field (this w)) eqn:Hf; cbn.
  - rewrite Hframe.
    destruct (slot_field s (this w)) as [id|] eqn:Hs; cbn.
    + exists [c; ClearInterval id]. unfold evolved, record; cbn.
      by rewrite <- app_assoc.
    + exists [c]. unfold evolved, record; cbn.
      rewrite Hslot; [done|]. by rewrite Hframe.
  - exists []. rewrite (Hnone _ Hf). by rewrite evolved_id.
Qed.

Ltac setter_fixpoint :=
  let a := fresh "a" in
  let H := fresh "H" in
  intros a H; destruct a; cbn in H; subst; reflexivity.

Ltac release_step field set c :=
  lazymatch goal with
  | |- context [bind (if_present field ?k) ?rest ?w1] =>
    let n := fresh "n" in
    let E := fresh "E" in
    destruct (release_evolved field set c w1) as (n & E);
    [setter_fixpoint | rewrite (bind_ok _ _ _ _ _ E); clear E]
  end.

Ltac release_transcriber_step field set s c :=
  lazymatch goal with
  | |- context [bind (if_present field ?k) ?rest ?w1] =>
    let n := fresh "n" in
    let E := fresh "E" in
    destruct (release_transcriber_evolved field set s c w1) as (n & E);
    [ setter_fixpoint
    | intros ? []; reflexivity
    | setter_fixpoint
    | cbn [slot_field slot_set] in E;
      rewrite (bind_ok _ _ _ _ _ E); clear E ]
  end.

(** [disconnect()] in full: the world it leaves, with and without a
    client. *)
Lemma disconnect_exact (w : World) :
  exists new,
    disconnect w
    = match client (this w) with
      | Some _ =>
        (Ok tt,
         evolved
           (set_connected false
              (set_initialized false (set_client None (released (this w)))))
           (released_timers (this w) (timers (machine w))) new w)
      | None =>
        (Throw (JsError "Disconnect error:TypeError: Cannot read properties of null (reading 'disconnect')"),
         evolved (released (this w))
           (released_timers (this w) (timers (machine w))) new w)
      end.
Proof.
  unfold disconnect, try_catch.
  destruct (stopCameraCapture_evolved w) as (n1 & E1).
  rewrite (bind_ok _ _ _ _ _ E1). clear E1.
  lazymatch goal with
  | |- context [bind stopScreenShare _ ?w1] =>
    destruct (stopScreenShare_evolved w1) as (n2 & E2)
  end.
  rewrite (bind_ok _ _ _ _ _ E2). clear E2.
  release_step audioRecorder set_audioRecorder RecorderStop.
  release_step visualizer set_visualizer VisualizerCleanup.
  release_step audioStreamer set_audioStreamer StreamerStop.
  release_transcriber_step modelTranscriber set_modelTranscriber ModelSlot
    (TranscriberDisconnect Model).
  release_transcriber_step userTranscriber set_userTranscriber UserSlot
    (TranscriberDisconnect User).
  release_step audioContext set_audioContext ContextClose.
  unfold bind, get_this, deref. cbn.
  destruct (client (this w)); cbn; eexists;
    unfold evolved, released, released_timers, record; cbn;
    rewrite <- ?app_assoc; reflexivity.
Qed.

(** *** Sessions keep the agent sound *)

Lemma session_keeps (I : World -> Prop) (acts : list Action) (w : World) :
  (forall act, keeps I (perform act)) -> I w -> I (session acts w).
Proof.
  intros Hact. revert w. induction acts as [|act acts IH]; intros w Hw.
  - exact Hw.
  - cbn [session]. apply IH. by apply Hact.
Qed.

Lemma constructed_agent (o : Options) (m : Machine) (w0 : World) :
  new_GeminiAgent o m = Ok w0 ->
  connected (this w0) = false /\
  (forall s, slot_field s (this w0) = None) /\
  timers (machine w0) = timers m /\
  nextTimer (machine w0) = nextTimer m.
Proof.
  unfold new_GeminiAgent, constructor.
  destruct (truthy_str (opt_url o)); cbn; [|done].
  destruct (opt_config o) as [cfg|]; [|done].
  destruct (opt_toolManager o) as [tm|]; [|done].
  destruct (tools cfg); [|done].
  intros [= <-]. cbn. repeat split; try done. by intros [].
Qed.

(** X1: whatever happens to a constructed agent (methods called in any
    order, events delivered, timers firing, the screen source ending),
    [connected] is never true while [client] is null. *)
Theorem session_keeps_link (o : Options) (m : Machine) (w0 : World)
    (acts : list Action) :
  new_GeminiAgent o m = Ok w0 ->
  connected (this (session acts w0)) = true ->
  is_Some (client (this (session acts w0))).
Proof.
  intros Hnew. change (linked (session acts w0)).
  apply session_keeps; [apply keeps_linked_perform|].
  intros Hc. destruct (constructed_agent o m w0 Hnew) as (Hf & _).
  congruence.
Qed.

Lemma session_keeps_link_witness :
  connected
    (this (session [CallConnect; CallInitialize; CallStartCameraCapture]
             page_world)) = true /\
  is_Some
    (client
       (this (session [CallConnect; CallInitialize; CallStartCameraCapture]
                page_world))).
Proof.
  assert (H : connected
    (this (session [CallConnect; CallInitialize; CallStartCameraCapture]
             page_world)) = true) by (vm_compute; reflexivity).
  split; [exact H|].
  apply (session_keeps_link page_options (boot calm) page_world
           [CallConnect; CallInitialize; CallStartCameraCapture]);
    [vm_compute; reflexivity | exact H].
Defined.

(** X2: on a constructed agent whose runtime had no timer from the future,
    after any session every handle held in [cameraInterval],
    [screenInterval], [modelsKeepAliveInterval] or [userKeepAliveInterval]
    is a live timer of that field's kind, and [setInterval] never hands
    out a handle that is live. *)
Theorem session_keeps_timers (o : Options) (m : Machine) (w0 : World)
    (acts : list Action) :
  new_GeminiAgent o m = Ok w0 ->
  (forall id kind,
     timers m !! id = Some kind -> (id < nextTimer m)%positive) ->
  timers_sound (session acts w0).
Proof.
  intros Hnew Hm.
  apply session_keeps; [apply keeps_timers_perform|].
  destruct (constructed_agent o m w0 Hnew) as (_ & Hs & Ht & Hn). split.
  - intros id kind. rewrite Ht, Hn. apply Hm.
  - intros s id. by rewrite Hs.
Qed.

Lemma session_keeps_timers_witness :
  timers_sound
    (session [CallConnect; CallStartScreenShare; CallStartScreenShare;
              ScreenSourceEnds; CallDisconnect] page_world).
Proof.
  apply (session_keeps_timers page_options (boot calm));
    [vm_compute; reflexivity | intros id kind; cbn; by rewrite lookup_empty].
Defined.

(** *** What [disconnect()] leaves behind *)

(** X3: [disconnect()] completes exactly when the agent holds a client,
    and either way it has released every guarded resource: recorder,
    visualizer, sink, both transcribers (each with its keep-alive timer)
    and the audio context are null, both capture intervals are null and
    cleared.  Only with a client are [client], [initialized] and
    [connected] reset; without one the flags stay as they were. *)
Theorem disconnect_releases_resources (w : World) :
  (fst (disconnect w) = Ok tt <-> is_Some (client (this w))) /\
  audioRecorder (this (snd (disconnect w))) = None /\
  visualizer (this (snd (disconnect w))) = None /\
  audioStreamer (this (snd (disconnect w))) = None /\
  modelTranscriber (this (snd (disconnect w))) = None /\
  userTranscriber (this (snd (disconnect w))) = None /\
  audioContext (this (snd (disconnect w))) = None /\
  cameraInterval (this (snd (disconnect w))) = None /\
  screenInterval (this (snd (disconnect w))) = None /\
  timers (machine (snd (disconnect w)))
    = released_timers (this w) (timers (machine w)) /\
  (client (this w) = None ->
   connected (this (snd (disconnect w))) = connected (this w) /\
   initialized (this (snd (disconnect w))) = initialized (this w)).
Proof.
  destruct (disconnect_exact w) as (new & E). rewrite E.
  destruct (client (this w)) as [c|]; cbn.
  - split; [split; [by eauto | done]|]. repeat split; done.
  - split; [split; [done | by intros [c Hc]]|]. repeat split; done.
Qed.

Lemma cleared_other (handle : option positive) (id : positive)
    (ts : gmap positive TimerKind) :
  handle <> Some id -> cleared handle ts !! id = ts !! id.
Proof.
  destruct handle as [id'|]; [|done]. intros Hne. cbn.
  apply lookup_delete_ne. congruence.
Qed.

Lemma released_timers_other (a : Agent) (ts : gmap positive TimerKind)
    (id : positive) :
  (forall s h, slot_field s a = Some h -> h <> id) ->
  released_timers a ts !! id = ts !! id.
Proof.
  intros Hne. unfold released_timers. rewrite !cleared_other; [done|..].
  - intros H. by apply (Hne CameraSlot id).
  - intros H. by apply (Hne ScreenSlot id).
  - destruct (modelTranscriber a); [|done].
    intros H. by apply (Hne ModelSlot id).
  - destruct (userTranscriber a); [|done].
    intros H. by apply (Hne UserSlot id).
Qed.

(** *** Starting a capture *)

Lemma startCameraCapture_run (w : World) (cm : Capturer) :
  connected (this w) = true ->
  cameraManager (this w) = Some cm ->
  device (env (machine w)) Camera = None ->
  startCameraCapture w
  = (Ok tt,
     {| this := set_cameraInterval (Some (nextTimer (machine w)))
                  (set_cameraManager (Some {| acquired := true |}) (this w));
        machine :=
          {| timers := <[nextTimer (machine w) := CaptureTick Camera]>
                         (timers (machine w));
             nextTimer := Pos.succ (nextTimer (machine w));
             trace := trace (machine w)
                      ++ [CapturerInitialize Camera;
                          SetInterval (nextTimer (machine w))
                            (CaptureTick Camera);
                          Console LogInfo "Camera capture started"];
             env := env (machine w) |} |}).
Proof.
  intros Hc Hm Hd.
  unfold startCameraCapture, try_catch, capturer_initialize, bind, get_this,
    get_env, deref, console, setInterval.
  cbn. rewrite Hc. cbn. rewrite Hm. cbn. rewrite Hd. cbn.
  unfold record; cbn. by rewrite <- !app_assoc.
Qed.

Lemma startScreenShare_run (w : World) (sm : Capturer) :
  connected (this w) = true ->
  screenManager (this w) = Some sm ->
  device (env (machine w)) Screen = None ->
  startScreenShare w
  = (Ok tt,
     {| this := set_screenInterval (Some (nextTimer (machine w)))
                  (set_screenManager (Some {| acquired := true |}) (this w));
        machine :=
          {| timers := <[nextTimer (machine w) := CaptureTick Screen]>
                         (timers (machine w));
             nextTimer := Pos.succ (nextTimer (machine w));
             trace := trace (machine w)
                      ++ [CapturerInitialize Screen;
                          SetInterval (nextTimer (machine w))
                            (CaptureTick Screen);
                          Console LogInfo "Screen sharing started"];
             env := env (machine w) |} |}).
Proof.
  intros Hc Hm Hd.
  unfold startScreenShare, try_catch, capturer_initialize, bind, get_this,
    get_env, deref, console, setInterval.
  cbn. rewrite Hc. cbn. rewrite Hm. cbn. rewrite Hd. cbn.
  unfold record; cbn. by rewrite <- !app_assoc.
Qed.

(** X4: on a connected agent whose device can be acquired, a start
    followed by the matching stop leaves the table of live timers exactly
    as it was, and the interval field null. *)
Theorem start_then_stop_restores_timers (w : World) (cm sm : Capturer) :
  fresh_handles w ->
  connected (this w) = true ->
  (cameraManager (this w) = Some cm ->
   device (env (machine w)) Camera = None ->
   timers (machine (snd (stopCameraCapture (snd (startCameraCapture w)))))
     = timers (machine w) /\
   cameraInterval (this (snd (stopCameraCapture (snd (startCameraCapture w)))))
     = None) /\
  (screenManager (this w) = Some sm ->
   device (env (machine w)) Screen = None ->
   timers (machine (snd (stopScreenShare (snd (startScreenShare w)))))
     = timers (machine w) /\
   screenInterval (this (snd (stopScreenShare (snd (startScreenShare w)))))
     = None).
Proof.
  intros Hfresh Hc.
  assert (Hnt : timers (machine w) !! nextTimer (machine w) = None).
  { destruct (timers (machine w) !! nextTimer (machine w)) as [k|] eqn:Hk;
      [|done]. specialize (Hfresh _ _ Hk). lia. }
  split; intros Hm Hd.
  - rewrite (startCameraCapture_run w cm Hc Hm Hd). cbn [snd].
    match goal with |- context [stopCameraCapture ?w1] =>
      destruct (stopCameraCapture_run w1) as (new & ->) end.
    cbn. split; [by apply delete_insert_id | done].
  - rewrite (startScreenShare_run w sm Hc Hm Hd). cbn [snd].
    match goal with |- context [stopScreenShare ?w1] =>
      destruct (stopScreenShare_run w1) as (new & ->) end.
    cbn. split; [by apply delete_insert_id | done].
Qed.

Lemma start_then_stop_restores_timers_witness :
  fresh_handles connected_world /\
  connected (this connected_world) = true /\
  timers (machine (snd (stopCameraCapture
                          (snd (startCameraCapture connected_world)))))
    = timers (machine connected_world).
Proof.
  assert (Hf : fresh_handles connected_world).
  { intros id kind.
    change (timers (machine connected_world))
      with (∅ : gmap positive TimerKind).
    by rewrite lookup_empty. }
  split; [exact Hf|]. split; [reflexivity|].
  apply (proj1 (start_then_stop_restores_timers connected_world
                  {| acquired := false |} {| acquired := false |}
                  Hf eq_refl)); reflexivity.
Defined.

(** X5: a second [startScreenShare()] (or [startCameraCapture()]) without a
    stop in between overwrites the held handle.  The first timer stays
    live and no field refers to it: neither the matching stop nor
    [disconnect()] clears it. *)
Theorem second_start_leaks_timer (w : World) (cm sm : Capturer) :
  timers_sound w ->
  connected (this w) = true ->
  (screenManager (this w) = Some sm ->
   device (env (machine w)) Screen = None ->
   let w2 := snd (startScreenShare (snd (startScreenShare w))) in
   screenInterval (this w2) = Some (Pos.succ (nextTimer (machine w))) /\
   timers (machine (snd (stopScreenShare w2))) !! nextTimer (machine w)
     = Some (CaptureTick Screen) /\
   timers (machine (snd (disconnect w2))) !! nextTimer (machine w)
     = Some (CaptureTick Screen)) /\
  (cameraManager (this w) = Some cm ->
   device (env (machine w)) Camera = None ->
   let w2 := snd (startCameraCapture (snd (startCameraCapture w))) in
   cameraInterval (this w2) = Some (Pos.succ (nextTimer (machine w))) /\
   timers (machine (snd (stopCameraCapture w2))) !! nextTimer (machine w)
     = Some (CaptureTick Camera) /\
   timers (machine (snd (disconnect w2))) !! nextTimer (machine w)
     = Some (CaptureTick Camera)).
Proof.
  intros [Hfresh Hheld] Hc.
  assert (Hold : forall s id, slot_field s (this w) = Some id ->
                              id <> nextTimer (machine w)).
  { intros s id Hs. specialize (Hfresh _ _ (Hheld s id Hs)). lia. }
  assert (Hsucc : Pos.succ (nextTimer (machine w)) <> nextTimer (machine w))
    by lia.
  split; intros Hm Hd w2.
  - subst w2. rewrite (startScreenShare_run w sm Hc Hm Hd). cbn [snd].
    erewrite startScreenShare_run; [|done|reflexivity|exact Hd].
    cbn [snd this machine timers nextTimer]. split; [done|]. split.
    + match goal with |- context [stopScreenShare ?w1] =>
        destruct (stopScreenShare_run w1) as (new & ->) end.
      cbn. rewrite lookup_delete_ne by done.
      rewrite lookup_insert_ne by done. apply lookup_insert_eq.
    + match goal with |- context [disconnect ?w1] =>
        destruct (disconnect_releases_resources w1)
          as (_ & _ & _ & _ & _ & _ & _ & _ & _ & -> & _) end.
      rewrite released_timers_other.
      * cbn. rewrite lookup_insert_ne by done. apply lookup_insert_eq.
      * intros s h; destruct s; cbn; intros Hs;
          first [ injection Hs as <-; exact Hsucc
                | by apply (Hold CameraSlot h)
                | by apply (Hold ScreenSlot h)
                | by apply (Hold ModelSlot h)
                | by apply (Hold UserSlot h) ].
  - subst w2. rewrite (startCameraCapture_run w cm Hc Hm Hd). cbn [snd].
    erewrite startCameraCapture_run; [|done|reflexivity|exact Hd].
    cbn [snd this machine timers nextTimer]. split; [done|]. split.
    + match goal with |- context [stopCameraCapture ?w1] =>
        destruct (stopCameraCapture_run w1) as (new & ->) end.
      cbn. rewrite lookup_delete_ne by done.
      rewrite lookup_insert_ne by done. apply lookup_insert_eq.
    + match goal with |- context [disconnect ?w1] =>
        destruct (disconnect_releases_resources w1)
          as (_ & _ & _ & _ & _ & _ & _ & _ & _ & -> & _) end.
      rewrite released_timers_other.
      * cbn. rewrite lookup_insert_ne by done. apply lookup_insert_eq.
      * intros s h; destruct s; cbn; intros Hs;
          first [ injection Hs as <-; exact Hsucc
                | by apply (Hold CameraSlot h)
                | by apply (Hold ScreenSlot h)
                | by apply (Hold ModelSlot h)
                | by apply (Hold UserSlot h) ].
Qed.

Lemma disconnect_releases_resources_witness :
  is_Some (client (this ready_world)) /\
  fst (disconnect ready_world) = Ok tt /\
  audioContext (this (snd (disconnect ready_world))) = None /\
  client (this page_world) = None /\
  initialized (this (snd (disconnect page_world)))
    = initialized (this page_world).
Proof.
  split; [by eexists|].
  destruct (disconnect_releases_resources ready_world)
    as (Hok & _ & _ & _ & _ & _ & Hctx & _).
  destruct (disconnect_releases_resources page_world)
    as (_ & _ & _ & _ & _ & _ & _ & _ & _ & _ & Hflags).
  split; [apply Hok; by eexists|]. split; [exact Hctx|].
  split; [reflexivity|]. exact (proj2 (Hflags eq_refl)).
Defined.

Lemma second_start_leaks_timer_witness :
  timers_sound connected_world /\
  connected (this connected_world) = true /\
  screenInterval
    (this (snd (startScreenShare (snd (startScreenShare connected_world)))))
    = Some 2%positive /\
  timers
    (machine
       (snd (disconnect
               (snd (startScreenShare
                       (snd (startScreenShare connected_world)))))))
    !! 1%positive = Some (CaptureTick Screen).
Proof.
  assert (Hs : timers_sound connected_world).
  { split.
    - intros id kind.
      change (timers (machine connected_world))
        with (∅ : gmap positive TimerKind).
      by rewrite lookup_empty.
    - by intros []. }
  split; [exact Hs|]. split; [reflexivity|].
  destruct (proj1 (second_start_leaks_timer connected_world
                     {| acquired := false |} {| acquired := false |}
                     Hs eq_refl) eq_refl eq_refl) as (H1 & _ & H3).
  split; [exact H1 | exact H3].
Defined.

(** *** A timer fires *)

(** X6: when a live capture timer fires, the agent asks the capturer for
    one frame and hands that frame to the client's [sendImage], nothing
    else.  If the agent holds no client any more (a timer that outlived
    [disconnect()]), the frame is still captured and the callback then
    throws a [TypeError]. *)
Theorem capture_timer_sends_frame (w : World) (id : positive) (s : Source)
    (mgr : Capturer) :
  timers (machine w) !! id = Some (CaptureTick s) ->
  manager s (this w) = Some mgr ->
  match client (this w) with
  | Some _ =>
    fire id w
    = (Ok tt,
       logged [CapturerCapture s;
               ClientSendImage (frame (env (machine w)) s)] w)
  | None =>
    exists msg,
      fire id w = (Throw (TypeError msg), logged [CapturerCapture s] w)
  end.
Proof.
  intros Hid Hm. unfold fire. rewrite Hid.
  unfold capture_tick, capturer_capture, bind, get_this, get_env, deref.
  cbn. rewrite Hm. cbn.
  destruct (client (this w)); cbn.
  - repeat progress (cbn; unfold logged, record, call).
    by rewrite <- ?app_assoc.
  - eexists. reflexivity.
Qed.

Lemma capture_timer_sends_frame_witness :
  timers (machine sharing_world) !! 1%positive = Some (CaptureTick Screen) /\
  trace (machine (snd (fire 1 sharing_world)))
    = trace (machine sharing_world)
      ++ [CapturerCapture Screen; ClientSendImage "screen-frame"].
Proof.
  split; [reflexivity|].
  pose proof (capture_timer_sends_frame sharing_world 1 Screen
                {| acquired := true |} eq_refl eq_refl) as H.
  cbn [client this sharing_world] in H. rewrite H. reflexivity.
Defined.

(** *** The agent's own events *)

Lemma on_listeners (w : World) (e : string) (cb : nat) :
  _eventListeners (this (snd (on e cb w)))
  = Some (<[e := default [] (default ∅ (_eventListeners (this w)) !! e)
                 ++ [cb]]>
            (default ∅ (_eventListeners (this w)))).
Proof.
  unfold on, update. cbn [snd this _eventListeners set_eventListeners].
  f_equal.
  destruct (default ∅ (_eventListeners (this w)) !! e) as [cbs|] eqn:He.
  - by rewrite He.
  - rewrite lookup_insert_eq. cbn [default]. by rewrite insert_insert_eq.
Qed.

Lemma listener_calls_default (a : Agent) (e : string) (data : option string) :
  listener_calls a e data
  = map (fun callback => Listener callback e data)
      (default [] (default ∅ (_eventListeners a) !! e)).
Proof.
  unfold listener_calls. destruct (_eventListeners a) as [ls|]; cbn.
  - by destruct (ls !! e).
  - by rewrite lookup_empty.
Qed.

(** X7: [on] appends.  After [on(e, cb)], [emit(e, data)] calls the
    callbacks registered for [e] before, in their order, and then [cb],
    each with [data]; what [emit] does for any other event is unchanged,
    and [on] itself calls nothing. *)
Theorem on_appends_listener (w : World) (e : string) (cb : nat)
    (data : option string) :
  machine (snd (on e cb w)) = machine w /\
  emit e data (snd (on e cb w))
    = (Ok tt,
       logged (listener_calls (this w) e data ++ [Listener cb e data])
         (snd (on e cb w))) /\
  (forall e', e' <> e ->
     emit e' data (snd (on e cb w))
     = (Ok tt, logged (listener_calls (this w) e' data) (snd (on e cb w)))).
Proof.
  split; [reflexivity|]. split.
  - rewrite emit_logged. f_equal. f_equal.
    rewrite !listener_calls_default, on_listeners.
    change (default ∅ (Some ?m)) with m.
    rewrite lookup_insert_eq.
    change (default [] (Some ?l)) with l. by rewrite map_app.
  - intros e' Hne. rewrite emit_logged. f_equal. f_equal.
    rewrite !listener_calls_default, on_listeners.
    change (default ∅ (Some ?m)) with m.
    by rewrite lookup_insert_ne.
Qed.

Lemma on_appends_listener_witness :
  trace (machine
    (snd (emit "interrupted" None
            (snd (on "interrupted" 2
                    (snd (on "turn_complete" 9
                            (snd (on "interrupted" 1 page_world)))))))))
  = trace (machine page_world)
    ++ [Listener 1 "interrupted" None; Listener 2 "interrupted" None].
Proof.
  destruct (on_appends_listener
              (snd (on "turn_complete" 9 (snd (on "interrupted" 1 page_world))))
              "interrupted" 2 None) as (_ & -> & _).
  reflexivity.
Defined.



(** *** Stopping a capture *)

(** X9: [stopCameraCapture()] and [stopScreenShare()] never throw, whatever
    the state of the agent, and stopping again changes nothing: the second
    call leaves the agent and the table of live timers as the first left
    them. *)
Theorem stop_is_idempotent (w : World) :
  (fst (stopCameraCapture w) = Ok tt /\
   fst (stopCameraCapture (snd (stopCameraCapture w))) = Ok tt /\
   this (snd (stopCameraCapture (snd (stopCameraCapture w))))
     = this (snd (stopCameraCapture w)) /\
   timers (machine (snd (stopCameraCapture (snd (stopCameraCapture w)))))
     = timers (machine (snd (stopCameraCapture w)))) /\
  (fst (stopScreenShare w) = Ok tt /\
   fst (stopScreenShare (snd (stopScreenShare w))) = Ok tt /\
   this (snd (stopScreenShare (snd (stopScreenShare w))))
     = this (snd (stopScreenShare w)) /\
   timers (machine (snd (stopScreenShare (snd (stopScreenShare w)))))
     = timers (machine (snd (stopScreenShare w)))).
Proof.
  split.
  - destruct (stopCameraCapture_run w) as (n1 & ->). cbn [fst snd].
    match goal with |- context [stopCameraCapture ?w1] =>
      destruct (stopCameraCapture_run w1) as (n2 & ->) end.
    cbn. repeat split. by destruct (cameraManager (this w)).
  - destruct (stopScreenShare_run w) as (n1 & ->). cbn [fst snd].
    match goal with |- context [stopScreenShare ?w1] =>
      destruct (stopScreenShare_run w1) as (n2 & ->) end.
    cbn. repeat split. by destruct (screenManager (this w)).
Qed.

(** *** [initialize()] that fails *)

(** X10: when the model transcriber's connection is refused,
    [initialize()] rejects with the refusal's message and rolls nothing
    back: the audio context, sink, visualizer, recorder and the
    unconnected transcriber stay in their fields, [initialized] is as it
    was, no timer is armed and no text turn is sent. *)
Theorem failed_initialize_keeps_resources (w : World) (error : Exn) :
  truthy_str (deepgramApiKey (this w)) = true ->
  transcribeModelsSpeech (this w) = true ->
  deepgram (env (machine w)) Model = Some error ->
  exists w',
    initialize w
    = (Throw (JsError ("Error during the initialization of the client: "
                       +:+ exn_message error)), w') /\
    initialized (this w') = initialized (this w) /\
    audioContext (this w') = Some the_AudioContext /\
    audioStreamer (this w')
      = Some {| isInitialized := true; scheduled := [] |} /\
    visualizer (this w') = Some the_AudioVisualizer /\
    audioRecorder (this w') = Some the_AudioRecorder /\
    modelTranscriber (this w') = Some {| isConnected := false |} /\
    timers (machine w') = timers (machine w) /\
    exists new,
      trace (machine w') = trace (machine w) ++ new /\
      sent_texts new = [].
Proof.
  destruct w as [a [ts nt tr [ls tp dv fr dg]]].
  destruct a as [ini con actx arec astr tms tus key rate fps cap rw q cman
                   cint sman sint tm cfg nm url cl vis mt ut mk uk evl].
  cbn. intros Hkey -> Hdg.
  destruct key as [[|ch key]|]; try discriminate Hkey.
  clear Hkey. vm_compute. rewrite Hdg.
  eexists. split; [reflexivity|]. repeat (split; [reflexivity|]).
  eexists. split; [fold (@app Call); rewrite <- ?app_assoc; reflexivity|].
  reflexivity.
Qed.

Lemma failed_initialize_keeps_resources_witness :
  deepgram (env (machine keyed_world)) Model = Some (JsError "refused") /\
  fst (initialize keyed_world)
    = Throw (JsError "Error during the initialization of the client: refused") /\
  audioContext (this (snd (initialize keyed_world))) = Some the_AudioContext.
Proof.
  split; [reflexivity|].
  destruct (failed_initialize_keeps_resources keyed_world (JsError "refused")
              eq_refl eq_refl eq_refl) as (w' & E & _ & Hctx & _).
  rewrite E. split; [reflexivity | exact Hctx].
Defined.

(** *** What a completed call has established *)

Lemma ensures_throw {A : Type} (Q : World -> Prop) (e : Exn) :
  ensures Q (@throw A e).
Proof. by intros w a w'. Qed.

Lemma ensures_bind_r {A B : Type} (Q : World -> Prop) (m : M A)
    (k : A -> M B) :
  (forall a, ensures Q (k a)) -> ensures Q (bind m k).
Proof.
  intros Hk w b w'. unfold bind.
  destruct (m w) as [[a|e] w1]; [apply Hk | done].
Qed.

Lemma ensures_bind_l {A B : Type} (Q : World -> Prop) (m : M A)
    (k : A -> M B) :
  ensures Q m -> (forall a, keeps Q (k a)) -> ensures Q (bind m k).
Proof.
  intros Hm Hk w b w'. unfold bind.
  destruct (m w) as [[a|e] w1] eqn:E; [|done].
  intros Hkw. specialize (Hk a w1 (Hm w a w1 E)). by rewrite Hkw in Hk.
Qed.

Lemma ensures_try_catch {A : Type} (Q : World -> Prop) (body : M A)
    (handler : Exn -> M A) :
  ensures Q body -> (forall e, ensures Q (handler e)) ->
  ensures Q (try_catch body handler).
Proof.
  intros Hb Hh w a w'. unfold try_catch.
  destruct (body w) as [[a'|e] w1] eqn:E.
  - intros [= <- <-]. by apply (Hb w a' w1).
  - apply Hh.
Qed.

Lemma keeps_connected_update (f : Agent -> Agent) :
  (forall a, connected (f a) = connected a) ->
  keeps is_connected (update f).
Proof. intros Hf w H. unfold is_connected in *. cbn. by rewrite Hf. Qed.

Lemma keeps_initialized_update (f : Agent -> Agent) :
  (forall a, initialized (f a) = initialized a) ->
  keeps is_initialized (update f).
Proof. intros Hf w H. unfold is_initialized in *. cbn. by rewrite Hf. Qed.

Ltac flag_prim :=
  idtac;
  lazymatch goal with
  | |- keeps _ (call _) => by intros ? ?
  | |- keeps _ (setInterval _) => by intros ? ?
  | |- keeps _ (clearInterval _) => by intros ? ?
  | |- keeps is_connected (update _) =>
    apply keeps_connected_update; intros ?; reflexivity
  | |- keeps is_initialized (update _) =>
    apply keeps_initialized_update; intros ?; reflexivity
  end.

Lemma initialize_keeps_connected : keeps is_connected initialize.
Proof.
  unfold initialize, initializeModelSpeechTranscriber,
    initializeUserSpeechTranscriber, streamer_do.
  keep_walk flag_prim.
Qed.

Lemma initialize_ok_initialized : ensures is_initialized initialize.
Proof.
  unfold initialize.
  apply ensures_try_catch.
  - repeat lazymatch goal with
           | |- ensures _ (bind (update (set_initialized true)) _) => fail
           | |- ensures _ (bind _ _) => apply ensures_bind_r; intros ?
           end.
    apply ensures_bind_l.
    + intros w0 u w1 [= _ <-]. reflexivity.
    + intros _. keep_walk flag_prim.
  - intros e. apply ensures_bind_r. intros _. apply ensures_throw.
Qed.

Lemma connect_ok_connected : ensures is_connected connect.
Proof.
  intros w a w'.
  unfold connect, client_connect, setupEventListeners, client_do, bind,
    get_this, get_env, deref; cbn.
  destruct (transport (env (machine w))); cbn; [done|].
  intros [= _ <-]. reflexivity.
Qed.

Lemma startCameraCapture_ok (w w' : World) :
  startCameraCapture w = (Ok tt, w') -> is_Some (cameraInterval (this w')).
Proof.
  unfold startCameraCapture, try_catch, capturer_initialize, bind, get_this,
    get_env, deref, console, setInterval.
  cbn -[disconnect].
  destruct (connected (this w)); cbn -[disconnect]; [|done].
  destruct (cameraManager (this w)); cbn -[disconnect].
  - destruct (device (env (machine w)) Camera); cbn -[disconnect].
    + by destruct (disconnect _) as [[[]|e'] w1].
    + intros [= <-]. by eexists.
  - by destruct (disconnect _) as [[[]|e'] w1].
Qed.

Lemma startScreenShare_ok (w w' : World) :
  startScreenShare w = (Ok tt, w') -> is_Some (screenInterval (this w')).
Proof.
  unfold startScreenShare, try_catch, capturer_initialize, bind, get_this,
    get_env, deref, console, setInterval.
  cbn -[stopScreenShare].
  destruct (connected (this w)); cbn -[stopScreenShare]; [|done].
  destruct (screenManager (this w)); cbn -[stopScreenShare].
  - destruct (device (env (machine w)) Screen); cbn -[stopScreenShare].
    + by destruct (stopScreenShare _) as [[[]|e'] w1].
    + intros [= <-]. by eexists.
  - by destruct (stopScreenShare _) as [[[]|e'] w1].
Qed.

(** *** The page's handlers *)

Ltac page_cbn :=
  cbn -[initialize connect disconnect startCameraCapture stopCameraCapture
        startScreenShare stopScreenShare].

Lemma ensureAgentReady_page (b b' : Browser) (r : Outcome unit) :
  ensureAgentReady b = (r, b') ->
  isCameraActive (page b') = isCameraActive (page b) /\
  isScreenShareActive (page b') = isScreenShareActive (page b) /\
  cameraBtn_active (page b') = cameraBtn_active (page b) /\
  screenBtn_active (page b') = screenBtn_active (page b).
Proof.
  unfold ensureAgentReady, pbind, get_agent, lift, showDisconnectButton,
    draw, pret.
  destruct (negb (connected (this (world b)))).
  - destruct (connect (world b)) as [[[]|e] w1]; page_cbn.
    + destruct (negb (initialized (this w1))); page_cbn.
      * destruct (initialize w1) as [r2 w2]. by intros [= <- <-].
      * by intros [= <- <-].
    + by intros [= <- <-].
  - page_cbn. destruct (negb (initialized (this (world b)))); page_cbn.
    + destruct (initialize (world b)) as [r2 w2]. by intros [= <- <-].
    + by intros [= <- <-].
Qed.

(** X11: [ensureAgentReady] is idempotent: once it has completed, the
    agent is connected and initialized, and a further call does nothing
    (no second [connect()], no second [initialize()], the page
    untouched). *)
Theorem ensureAgentReady_idempotent (b b' : Browser) :
  ensureAgentReady b = (Ok tt, b') ->
  connected (this (world b')) = true /\
  initialized (this (world b')) = true /\
  ensureAgentReady b' = (Ok tt, b').
Proof.
  intros H.
  assert (Hready : connected (this (world b')) = true /\
                   initialized (this (world b')) = true).
  { revert H.
    unfold ensureAgentReady, pbind, get_agent, lift, showDisconnectButton,
      draw, pret.
    destruct (connected (this (world b))) eqn:Hc; cbn [negb].
    - destruct (initialized (this (world b))) eqn:Hi; cbn [negb].
      + by intros [= <-].
      + destruct (initialize (world b)) as [[[]|e] w2] eqn:Hinit; [|by intros [=]].
        intros [= <-]. cbn [world]. split.
        * pose proof (initialize_keeps_connected (world b) Hc) as Hk.
          by rewrite Hinit in Hk.
        * exact (initialize_ok_initialized _ _ _ Hinit).
    - destruct (connect (world b)) as [[[]|e] w1] eqn:Hconn; page_cbn;
        [|by intros [=]].
      pose proof (connect_ok_connected _ _ _ Hconn) as Hc1.
      destruct (initialized (this w1)) eqn:Hi; cbn [negb]; page_cbn.
      + by intros [= <-].
      + destruct (initialize w1) as [[[]|e] w2] eqn:Hinit; [|by intros [=]].
        intros [= <-]. cbn [world]. split.
        * pose proof (initialize_keeps_connected w1 Hc1) as Hk.
          by rewrite Hinit in Hk.
        * exact (initialize_ok_initialized _ _ _ Hinit). }
  destruct Hready as [Hc Hi]. split; [exact Hc|]. split; [exact Hi|].
  unfold ensureAgentReady, pbind, get_agent, pret.
  rewrite Hc. cbn. by rewrite Hi.
Qed.

Lemma ensureAgentReady_idempotent_witness :
  fst (ensureAgentReady loaded_browser) = Ok tt /\
  connected (this (world (snd (ensureAgentReady loaded_browser)))) = true /\
  ensureAgentReady (snd (ensureAgentReady loaded_browser))
    = (Ok tt, snd (ensureAgentReady loaded_browser)).
Proof.
  assert (H : fst (ensureAgentReady loaded_browser) = Ok tt)
    by (vm_compute; reflexivity).
  split; [exact H|].
  destruct (ensureAgentReady_idempotent loaded_browser
              (snd (ensureAgentReady loaded_browser))) as (Hc & _ & Hi).
  - rewrite <- H. apply surjective_pairing.
  - split; [exact Hc | exact Hi].
Defined.

(** X12: the camera and screen click handlers never throw, and when one
    leaves its flag set ([isCameraActive], [isScreenShareActive]) the agent
    holds the corresponding capture interval and the button has the
    [active] class. *)
Theorem capture_click_flag_means_capturing (b : Browser) :
  (fst (camera_click b) = Ok tt /\
   (isCameraActive (page (snd (camera_click b))) = true ->
    is_Some (cameraInterval (this (world (snd (camera_click b))))) /\
    cameraBtn_active (page (snd (camera_click b))) = true)) /\
  (fst (screen_click b) = Ok tt /\
   (isScreenShareActive (page (snd (screen_click b))) = true ->
    is_Some (screenInterval (this (world (snd (screen_click b))))) /\
    screenBtn_active (page (snd (screen_click b))) = true)).
Proof.
  split.
  - unfold camera_click, ptry_catch, pbind, get_page, lift, draw, console.
    destruct (ensureAgentReady b) as [[[]|e] b1]; page_cbn; [|done].
    destruct (isCameraActive (page b1)) eqn:Hf; page_cbn.
    + destruct (stopCameraCapture_run (world b1)) as (new & ->). page_cbn.
      rewrite Hf. by split.
    + destruct (startCameraCapture (world b1)) as [[[]|e] w2] eqn:Hs;
        page_cbn; [|done].
      split; [done|]. intros _. split; [|done].
      exact (startCameraCapture_ok _ _ Hs).
  - unfold screen_click, ptry_catch, pbind, get_page, lift, draw, console.
    destruct (ensureAgentReady b) as [[[]|e] b1]; page_cbn; [|done].
    destruct (isScreenShareActive (page b1)) eqn:Hf; page_cbn.
    + destruct (stopScreenShare_run (world b1)) as (new & ->). page_cbn.
      rewrite Hf. by split.
    + destruct (startScreenShare (world b1)) as [[[]|e] w2] eqn:Hs;
        page_cbn; [|done].
      split; [done|]. intros _. split; [|done].
      exact (startScreenShare_ok _ _ Hs).
Qed.

Lemma capture_click_flag_means_capturing_witness :
  isCameraActive (page (snd (camera_click loaded_browser))) = true /\
  is_Some (cameraInterval (this (world (snd (camera_click loaded_browser))))).
Proof.
  assert (H : isCameraActive (page (snd (camera_click loaded_browser))) = true)
    by (vm_compute; reflexivity).
  split; [exact H|].
  exact (proj1 (proj2 (proj1 (capture_click_flag_means_capturing
                                loaded_browser)) H)).
Defined.

(** X13: the disconnect click handler clears the three buttons and
    [isCameraActive] but not [isScreenShareActive].  If the screen was
    shared, the flag is still set after the disconnect although no screen
    interval is held, and the next click on the screen button, once the
    agent is ready again, calls [stopScreenShare()] instead of starting:
    it ends with no screen interval and the flag cleared.  (The flag is
    otherwise reset only by the [screenshare_stopped] listener, which the
    agent emits from the capturer's [onStop]; [disconnect()] does not emit
    it, and the capturer's [dispose()] is modelled as silent, as its
    track-ended handler calls [dispose()] and then [onStop()] itself.) *)
Theorem disconnect_click_leaves_screen_flag (b : Browser) :
  is_Some (client (this (world b))) ->
  fst (disconnect_click b) = Ok tt /\
  isScreenShareActive (page (snd (disconnect_click b)))
    = isScreenShareActive (page b) /\
  isCameraActive (page (snd (disconnect_click b))) = false /\
  cameraBtn_active (page (snd (disconnect_click b))) = false /\
  screenBtn_active (page (snd (disconnect_click b))) = false /\
  micBtn_active (page (snd (disconnect_click b))) = false /\
  screenInterval (this (world (snd (disconnect_click b)))) = None /\
  (isScreenShareActive (page b) = true ->
   forall b2,
     ensureAgentReady (snd (disconnect_click b)) = (Ok tt, b2) ->
     screenInterval
       (this (world (snd (screen_click (snd (disconnect_click b)))))) = None /\
     isScreenShareActive
       (page (snd (screen_click (snd (disconnect_click b))))) = false).
Proof.
  intros [c Hc].
  destruct (disconnect_with_client (world b) c Hc)
    as (w1 & Hd & _ & _ & _ & _ & Hscr & _).
  assert (Hb1 : disconnect_click b
    = (Ok tt,
       {| world := w1;
          page := {| connectBtn_display := "block";
                     disconnectBtn_display := "none";
                     micBtn_active := false;
                     cameraBtn_active := false;
                     screenBtn_active := false;
                     isCameraActive := false;
                     isScreenShareActive := isScreenShareActive (page b) |} |})).
  { unfold disconnect_click, ptry_catch, pbind, lift, showConnectButton, draw.
    rewrite Hd. reflexivity. }
  rewrite Hb1. cbn [fst snd page world isScreenShareActive isCameraActive
                      cameraBtn_active screenBtn_active micBtn_active].
  repeat (split; [done|]).
  intros Hflag b2 Hready.
  destruct (ensureAgentReady_page _ _ _ Hready) as (_ & Hf2 & _).
  cbn in Hf2. rewrite Hflag in Hf2.
  unfold screen_click, ptry_catch, pbind, get_page, lift, draw.
  rewrite Hready. page_cbn. rewrite Hf2. page_cbn.
  destruct (stopScreenShare_run (world b2)) as (new & ->). page_cbn.
  by rewrite Hf2.
Qed.

Lemma disconnect_click_leaves_screen_flag_witness :
  is_Some (client (this (world sharing_browser))) /\
  isScreenShareActive (page sharing_browser) = true /\
  isScreenShareActive (page (snd (disconnect_click sharing_browser))) = true /\
  screenInterval (this (world (snd (disconnect_click sharing_browser))))
    = None /\
  isScreenShareActive
    (page (snd (screen_click (snd (disconnect_click sharing_browser)))))
    = false.
Proof.
  split; [by eexists|]. split; [reflexivity|].
  destruct (disconnect_click_leaves_screen_flag sharing_browser)
    as (_ & Hf & _ & _ & _ & _ & Hs & Hnext); [by eexists|].
  split; [exact Hf|]. split; [exact Hs|].
  refine (proj2 (Hnext eq_refl
    (snd (ensureAgentReady (snd (disconnect_click sharing_browser)))) _)).
  assert (H : fst (ensureAgentReady (snd (disconnect_click sharing_browser)))
              = Ok tt) by (vm_compute; reflexivity).
  rewrite <- H. apply surjective_pairing.
Defined.

(** *** Settings and the constructor *)

Lemma saved_capture_settings (el : SettingsInputs)
    (storage : gmap string string) :
  saveSettings el storage !! "fps" = Some (fpsInput el) /\
  saveSettings el storage !! "resizeWidth" = Some (resizeWidthInput el) /\
  saveSettings el storage !! "quality" = Some (qualityInput el) /\
  saveSettings el storage !! "facingMode" = storage !! "facingMode".
Proof.
  unfold saveSettings. cbv zeta.
  repeat split;
    repeat (first [ rewrite lookup_insert_eq; reflexivity
                  | rewrite lookup_insert_ne by done ]);
    reflexivity.
Qed.

(** X14: an agent constructed after [saveSettings()] captures with the
    dialog's values: its [fps], [resizeWidth] and [quality] are the three
    inputs (an empty input falls back to ["5"], ["640"], ["0.4"]), and both
    capturers are created with that width and quality.  The camera's
    facing mode is not among the saved keys: it is what [localStorage] held
    before. *)
Theorem saved_settings_reach_constructor (el : SettingsInputs)
    (storage : gmap string string) (o : Options) (m : Machine) (a : Agent)
    (m' : Machine) :
  constructor o (with_storage (saveSettings el storage) m) = (Ok a, m') ->
  fps a = or_default (Some (fpsInput el)) "5" /\
  resizeWidth a = or_default (Some (resizeWidthInput el)) "640" /\
  quality a = or_default (Some (qualityInput el)) "0.4" /\
  trace m'
    = trace m
      ++ [NewCameraManager (resizeWidth a) (quality a)
            (or_default (storage !! "facingMode") "environment");
          NewScreenManager (resizeWidth a) (quality a)].
Proof.
  destruct (saved_capture_settings el storage) as (Hf & Hw & Hq & Hm).
  unfold constructor.
  destruct (truthy_str (opt_url o)); cbn [negb]; [|done].
  destruct (opt_config o) as [cfg|]; [|done].
  cbn [env with_storage localStorage].
  rewrite Hf, Hw, Hq, Hm.
  destruct (opt_toolManager o) as [tm|]; [|done].
  destruct (tools cfg); [|done].
  intros [= <- <-]. cbn. repeat split; try done.
  by rewrite <- app_assoc.
Qed.

Lemma saved_settings_reach_constructor_witness :
  fps (this (unwrap (new_GeminiAgent page_options
                       (with_storage (saveSettings dialog_inputs ∅)
                          (boot calm))))) = "2".
Proof.
  destruct (saved_settings_reach_constructor dialog_inputs ∅ page_options
              (boot calm)
              (this (unwrap (new_GeminiAgent page_options
                               (with_storage (saveSettings dialog_inputs ∅)
                                  (boot calm)))))
              (machine (unwrap (new_GeminiAgent page_options
                                  (with_storage (saveSettings dialog_inputs ∅)
                                     (boot calm))))))
    as (Hf & _); [vm_compute; reflexivity|].
  exact Hf.
Defined.
